(** * Face-area engine of uxarray: a shallow embedding and its properties

    The development follows [src/uxarray/helpers.py] (coordinate projector,
    triangle Jacobian evaluators, single-face integrator, mesh-wide driver,
    file-type detection) and the class [Grid] of [src/uxarray/grid/grid.py]
    (its face-area methods, [encode_as], the two constructors, [copy] and
    the cached views).

    Conventions of the embedding.
    - A Python call returns [Ok v] or raises: [Raise e].
    - NumPy [float64] arithmetic is an interface ([Float64]) without laws;
      the code is written once over it.  Two instances are given: IEEE-754
      binary64 ([PrimFloat], where the code can be run) and exact real
      arithmetic ([R], the idealisation in which the algebraic facts about
      the projector are stated).  Following NumPy, every operation is total:
      dividing by a zero [float64] gives inf or NaN, it does not raise.
    - Sequences are lists; [getitem] is Python's subscript, with negative
      indices counted from the end and [IndexError] out of range.
    - The functions of helpers.py carry numba's [@njit]; they are read here
      as the Python and NumPy text they are. *)

From Stdlib Require Import List ZArith String Bool Lia DecimalString.
From Stdlib Require Import Reals Lra.
From Stdlib Require PrimFloat Uint63.
Import ListNotations.

(** ** Exceptions and results *)

Inductive exn : Type :=
| ValueError (msg : string)
| IndexError
| AttributeError (name : string)
| OtherError (tag : string).

Inductive result (A : Type) : Type :=
| Ok (a : A)
| Raise (e : exn).

Arguments Ok {A} a.
Arguments Raise {A} e.

Definition bind {A B : Type} (c : result A) (k : A -> result B) : result B :=
  match c with
  | Ok a => k a
  | Raise e => Raise e
  end.

Declare Scope py_scope.
Delimit Scope py_scope with py.
Notation "x <- c ;; k" := (bind c (fun x => k))
  (at level 61, c at next level, right associativity) : py_scope.
Notation "' p <- c ;; k" := (bind c (fun x => let p := x in k))
  (at level 61, p pattern, c at next level, right associativity) : py_scope.

Definition raises {A : Type} (c : result A) : Prop :=
  exists e, c = Raise e.

(** ** Python sequences *)

Definition len {A : Type} (l : list A) : Z := Z.of_nat (List.length l).

(** [l[i]]: a negative [i] counts from the end. *)
Definition getitem {A : Type} (l : list A) (i : Z) : result A :=
  let k := if (i <? 0)%Z then (i + len l)%Z else i in
  if ((0 <=? k)%Z && (k <? len l)%Z)%bool then
    match nth_error l (Z.to_nat k) with
    | Some a => Ok a
    | None => Raise IndexError
    end
  else Raise IndexError.

(** [l[i] = v] on an array: in place, same length. *)
Fixpoint set_nth {A : Type} (l : list A) (n : nat) (v : A) : list A :=
  match l, n with
  | [], _ => []
  | _ :: t, O => v :: t
  | h :: t, S n' => h :: set_nth t n' v
  end.

Definition setitem {A : Type} (l : list A) (i : Z) (v : A) : result (list A) :=
  let k := if (i <? 0)%Z then (i + len l)%Z else i in
  if ((0 <=? k)%Z && (k <? len l)%Z)%bool then Ok (set_nth l (Z.to_nat k) v)
  else Raise IndexError.

(** The node a subscript [i] selects in an array of [n] entries. *)
Definition wrap (n i : Z) : nat :=
  Z.to_nat (if (i <? 0)%Z then (i + n)%Z else i).

Definition subscript_ok (n i : Z) : Prop := (- n <= i < n)%Z.

Definition item {A : Type} (l : list A) (d : A) (i : Z) : A :=
  nth (wrap (len l) i) l d.

(** [range(0, n)]: empty when [n <= 0]. *)
Definition range (n : Z) : list Z :=
  map Z.of_nat (seq 0 (Z.to_nat n)).

(** [for i in idx: s = body i s], stopping at the first exception. *)
Fixpoint for_each {S : Type} (idx : list Z) (body : Z -> S -> result S)
  (s : S) : result S :=
  match idx with
  | [] => Ok s
  | i :: rest =>
      match body i s with
      | Ok s' => for_each rest body s'
      | Raise e => Raise e
      end
  end.

(** [[f(a) for a in l]], stopping at the first exception. *)
Fixpoint map_result {A B : Type} (f : A -> result B) (l : list A)
  : result (list B) :=
  match l with
  | [] => Ok []
  | a :: rest =>
      match f a with
      | Ok b =>
          match map_result f rest with
          | Ok bs => Ok (b :: bs)
          | Raise e => Raise e
          end
      | Raise e => Raise e
      end
  end.

(** ** Float arithmetic *)

Class Float64 (F : Type) : Type := {
  f_of_Z : Z -> F;          (* the literals 0.0, 1.0 and the integer 6371 *)
  f_half : F;               (* the literal 0.5 *)
  fadd : F -> F -> F;
  fsub : F -> F -> F;
  fmul : F -> F -> F;
  fdiv : F -> F -> F;
  fneg : F -> F;
  fsqrt : F -> F            (* np.sqrt *)
}.

Class Trig (F : Type) : Type := {
  fcos : F -> F;            (* np.cos *)
  fsin : F -> F;            (* np.sin *)
  deg2rad : F -> F          (* np.deg2rad *)
}.

Declare Scope num_scope.
Delimit Scope num_scope with num.
Notation "a + b" := (fadd a b) : num_scope.
Notation "a - b" := (fsub a b) : num_scope.
Notation "a * b" := (fmul a b) : num_scope.
Notation "a / b" := (fdiv a b) : num_scope.
Notation "- a" := (fneg a) : num_scope.

(** A NumPy array of three floats. *)
Record vec3 (F : Type) : Type := V3 { c0 : F; c1 : F; c2 : F }.

Arguments V3 {F} c0 c1 c2.
Arguments c0 {F} v.
Arguments c1 {F} v.
Arguments c2 {F} v.

Section Engine.

Context {F : Type} {FO : Float64 F} {TR : Trig F}.

Local Open Scope num_scope.

Definition f0 : F := f_of_Z 0.
Definition f1 : F := f_of_Z 1.

(** [np.zeros(n)] *)
Definition np_zeros (n : Z) : list F := repeat f0 (Z.to_nat n).

(** [np.linalg.norm] of a three-vector. *)
Definition np_linalg_norm (v : vec3 F) : F :=
  fsqrt (c0 v * c0 v + c1 v * c1 v + c2 v * c2 v).

(** [v / s], element by element. *)
Definition vdiv (v : vec3 F) (s : F) : vec3 F :=
  V3 (c0 v / s) (c1 v / s) (c2 v / s).

(** [v *= s], element by element. *)
Definition vscale (v : vec3 F) (s : F) : vec3 F :=
  V3 (c0 v * s) (c1 v * s) (c2 v * s).

(** [np.cross] *)
Definition np_cross (a b : vec3 F) : vec3 F :=
  V3 (c1 a * c2 b - c2 a * c1 b)
     (c2 a * c0 b - c0 a * c2 b)
     (c0 a * c1 b - c1 a * c0 b).

(** The default of the parameter [r]. *)
Definition r_default : F := f_of_Z 6371.

(** helpers.py, [_spherical_to_cartesian_unit_(node, r=6371)] *)
Definition _spherical_to_cartesian_unit_ (node : vec3 F) (r : F) : vec3 F :=
  let lon := c0 node in
  let lat := c1 node in
  let lat := deg2rad lat in
  let lon := deg2rad lon in
  let x := r * fcos lat * fcos lon in
  let y := r * fcos lat * fsin lon in
  let z := r * fsin lat in
  let coord := V3 x y z in
  let unit_coord := vdiv coord (np_linalg_norm coord) in
  unit_coord.

(** helpers.py, [calculate_spherical_triangle_jacobian] *)
Definition calculate_spherical_triangle_jacobian
  (node1 node2 node3 : vec3 F) (dA dB : F) : F :=
  let dF := V3
    ((f1 - dB) * ((f1 - dA) * c0 node1 + dA * c0 node2) + dB * c0 node3)
    ((f1 - dB) * ((f1 - dA) * c1 node1 + dA * c1 node2) + dB * c1 node3)
    ((f1 - dB) * ((f1 - dA) * c2 node1 + dA * c2 node2) + dB * c2 node3) in
  let dDaF := V3
    ((f1 - dB) * (c0 node2 - c0 node1))
    ((f1 - dB) * (c1 node2 - c1 node1))
    ((f1 - dB) * (c2 node2 - c2 node1)) in
  let dDbF := V3
    (- (f1 - dA) * c0 node1 - dA * c0 node2 + c0 node3)
    (- (f1 - dA) * c1 node1 - dA * c1 node2 + c1 node3)
    (- (f1 - dA) * c2 node1 - dA * c2 node2 + c2 node3) in
  let dInvR := f1 / fsqrt (c0 dF * c0 dF + c1 dF * c1 dF + c2 dF * c2 dF) in
  let dDaG := V3
    (c0 dDaF * (c1 dF * c1 dF + c2 dF * c2 dF)
     - c0 dF * (c1 dDaF * c1 dF + c2 dDaF * c2 dF))
    (c1 dDaF * (c0 dF * c0 dF + c2 dF * c2 dF)
     - c1 dF * (c0 dDaF * c0 dF + c2 dDaF * c2 dF))
    (c2 dDaF * (c0 dF * c0 dF + c1 dF * c1 dF)
     - c2 dF * (c0 dDaF * c0 dF + c1 dDaF * c1 dF)) in
  let dDbG := V3
    (c0 dDbF * (c1 dF * c1 dF + c2 dF * c2 dF)
     - c0 dF * (c1 dDbF * c1 dF + c2 dDbF * c2 dF))
    (c1 dDbF * (c0 dF * c0 dF + c2 dF * c2 dF)
     - c1 dF * (c0 dDbF * c0 dF + c2 dDbF * c2 dF))
    (c2 dDbF * (c0 dF * c0 dF + c1 dF * c1 dF)
     - c2 dF * (c0 dDbF * c0 dF + c1 dDbF * c1 dF)) in
  let dDenomTerm := dInvR * dInvR * dInvR in
  let dDaG := vscale dDaG dDenomTerm in
  let dDbG := vscale dDbG dDenomTerm in
  let nodeCross := np_cross dDaG dDbG in
  let dJacobian := fsqrt (c0 nodeCross * c0 nodeCross
                          + c1 nodeCross * c1 nodeCross
                          + c2 nodeCross * c2 nodeCross) in
  dJacobian.

(** helpers.py, [calculate_spherical_triangle_jacobian_barycentric] *)
Definition calculate_spherical_triangle_jacobian_barycentric
  (node1 node2 node3 : vec3 F) (dA dB : F) : F :=
  let dF := V3
    (dA * c0 node1 + dB * c0 node2 + (f1 - dA - dB) * c0 node3)
    (dA * c1 node1 + dB * c1 node2 + (f1 - dA - dB) * c1 node3)
    (dA * c2 node1 + dB * c2 node2 + (f1 - dA - dB) * c2 node3) in
  let dDaF := V3
    (c0 node1 - c0 node3) (c1 node1 - c1 node3) (c2 node1 - c2 node3) in
  let dDbF := V3
    (c0 node2 - c0 node3) (c1 node2 - c1 node3) (c2 node2 - c2 node3) in
  let dInvR := f1 / fsqrt (c0 dF * c0 dF + c1 dF * c1 dF + c2 dF * c2 dF) in
  let dDaG := V3
    (c0 dDaF * (c1 dF * c1 dF + c2 dF * c2 dF)
     - c0 dF * (c1 dDaF * c1 dF + c2 dDaF * c2 dF))
    (c1 dDaF * (c0 dF * c0 dF + c2 dF * c2 dF)
     - c1 dF * (c0 dDaF * c0 dF + c2 dDaF * c2 dF))
    (c2 dDaF * (c0 dF * c0 dF + c1 dF * c1 dF)
     - c2 dF * (c0 dDaF * c0 dF + c1 dDaF * c1 dF)) in
  let dDbG := V3
    (c0 dDbF * (c1 dF * c1 dF + c2 dF * c2 dF)
     - c0 dF * (c1 dDbF * c1 dF + c2 dDbF * c2 dF))
    (c1 dDbF * (c0 dF * c0 dF + c2 dF * c2 dF)
     - c1 dF * (c0 dDbF * c0 dF + c2 dDbF * c2 dF))
    (c2 dDbF * (c0 dF * c0 dF + c1 dF * c1 dF)
     - c2 dF * (c0 dDbF * c0 dF + c1 dDbF * c1 dF)) in
  let dDenomTerm := dInvR * dInvR * dInvR in
  let dDaG := vscale dDaG dDenomTerm in
  let dDbG := vscale dDbG dDenomTerm in
  let nodeCross := np_cross dDaG dDbG in
  let dJacobian := fsqrt (c0 nodeCross * c0 nodeCross
                          + c1 nodeCross * c1 nodeCross
                          + c2 nodeCross * c2 nodeCross) in
  f_half * dJacobian.

End Engine.

(** ** Single-face integrator and mesh-wide driver *)

(** What [get_gauss_quadratureDG] and [get_tri_quadratureDG] return: the
    two-dimensional array [dG] and the weights [dW]. *)
Definition tables (F : Type) : Type := (list (list F) * list F)%type.

Section FaceArea.

Context {F : Type} {FO : Float64 F} {TR : Trig F}.

(** The two table providers of [get_quadratureDG], a module that is not among
    the sources: they are parameters of the integrator. *)
Variable get_gauss_quadratureDG : Z -> result (tables F).
Variable get_tri_quadratureDG : Z -> result (tables F).

Local Open Scope num_scope.
Local Open Scope py_scope.
Local Open Scope string_scope.

(** One pass of the loop over [q] for the gaussian rule. *)
Definition gaussian_step (dG : list (list F)) (dW : list F)
  (node1 node2 node3 : vec3 F) (p q : Z) (area : F) : result F :=
  row <- getitem dG 0 ;;
  dA <- getitem row p ;;
  row <- getitem dG 0 ;;
  dB <- getitem row q ;;
  let jacobian :=
    calculate_spherical_triangle_jacobian node1 node2 node3 dA dB in
  wp <- getitem dW p ;;
  wq <- getitem dW q ;;
  Ok (area + wp * wq * jacobian).

(** The branch of the loop over [p] for the triangular rule. *)
Definition triangular_step (dG : list (list F)) (dW : list F)
  (node1 node2 node3 : vec3 F) (p : Z) (area : F) : result F :=
  row <- getitem dG p ;;
  dA <- getitem row 0 ;;
  row <- getitem dG p ;;
  dB <- getitem row 1 ;;
  let jacobian :=
    calculate_spherical_triangle_jacobian_barycentric node1 node2 node3 dA dB in
  wp <- getitem dW p ;;
  Ok (area + wp * jacobian).

(** The body of [for p in range(len(dW))]. *)
Definition quadrature_step (quadrature_rule : string)
  (dG : list (list F)) (dW : list F)
  (node1 node2 node3 : vec3 F) (p : Z) (area : F) : result F :=
  if quadrature_rule =? "gaussian" then
    for_each (range (len dW))
      (fun q area => gaussian_step dG dW node1 node2 node3 p q area) area
  else if quadrature_rule =? "triangular" then
    triangular_step dG dW node1 node2 node3 p area
  else Ok area.

(** The body of [for j in range(0, num_triangles)]. *)
Definition triangle_step (x y z : list F) (quadrature_rule : string)
  (dG : list (list F)) (dW : list F) (coords_type : string)
  (j : Z) (area : F) : result F :=
  x0 <- getitem x 0 ;; y0 <- getitem y 0 ;; z0 <- getitem z 0 ;;
  let node1 := V3 x0 y0 z0 in
  x1 <- getitem x (j + 1)%Z ;; y1 <- getitem y (j + 1)%Z ;;
  z1 <- getitem z (j + 1)%Z ;;
  let node2 := V3 x1 y1 z1 in
  x2 <- getitem x (j + 2)%Z ;; y2 <- getitem y (j + 2)%Z ;;
  z2 <- getitem z (j + 2)%Z ;;
  let node3 := V3 x2 y2 z2 in
  let '(node1, node2, node3) :=
    if coords_type =? "spherical" then
      (_spherical_to_cartesian_unit_ node1 r_default,
       _spherical_to_cartesian_unit_ node2 r_default,
       _spherical_to_cartesian_unit_ node3 r_default)
    else (node1, node2, node3) in
  for_each (range (len dW))
    (fun p area =>
       quadrature_step quadrature_rule dG dW node1 node2 node3 p area)
    area.

(** What the [else] branch of the rule test raises. *)
Definition invalid_rule_error : exn :=
  ValueError "Invalid quadrature rule, specify gaussian or triangular".

(** helpers.py, [calculate_face_area] *)
Definition calculate_face_area (x y z : list F) (quadrature_rule : string)
  (order : Z) (coords_type : string) : result F :=
  let area := f0 in
  '(dG, dW) <-
    (if quadrature_rule =? "gaussian" then get_gauss_quadratureDG order
     else if quadrature_rule =? "triangular" then get_tri_quadratureDG order
     else Raise invalid_rule_error) ;;
  let num_nodes := len x in
  let num_triangles := (num_nodes - 2)%Z in
  for_each (range num_triangles)
    (triangle_step x y z quadrature_rule dG dW coords_type) area.

(** The body of [for j in range(num_face_nodes)] of the driver: the state is
    the three arrays [face_x], [face_y], [face_z]. *)
Definition gather_step (x y z : list F) (face : list Z) (dim : Z)
  (j : Z) (st : list F * list F * list F)
  : result (list F * list F * list F) :=
  let '(face_x, face_y, face_z) := st in
  node_id <- getitem face j ;;
  xv <- getitem x node_id ;;
  face_x <- setitem face_x j xv ;;
  yv <- getitem y node_id ;;
  face_y <- setitem face_y j yv ;;
  if (dim >? 2)%Z then
    zv <- getitem z node_id ;;
    face_z <- setitem face_z j zv ;;
    Ok (face_x, face_y, face_z)
  else Ok (face_x, face_y, face_z).

(** The body of [for i in range(num_faces)] of the driver. *)
Definition face_step (x y z : list F) (face_nodes : list (list Z)) (dim : Z)
  (quadrature_rule : string) (order : Z) (coords_type : string)
  (i : Z) (area : list F) : result (list F) :=
  face <- getitem face_nodes i ;;
  let num_face_nodes := len face in
  let face_x := np_zeros num_face_nodes in
  let face_y := np_zeros num_face_nodes in
  let face_z := np_zeros num_face_nodes in
  '(face_x, face_y, face_z) <-
    for_each (range num_face_nodes) (gather_step x y z face dim)
      (face_x, face_y, face_z) ;;
  face_area <-
    calculate_face_area face_x face_y face_z quadrature_rule order
      coords_type ;;
  setitem area i face_area.

(** helpers.py, [get_all_face_area_from_coords]; the defaults of the last three
    parameters are "triangular", 4 and "spherical". *)
Definition get_all_face_area_from_coords (x y z : list F)
  (face_nodes : list (list Z)) (dim : Z) (quadrature_rule : string)
  (order : Z) (coords_type : string) : result (list F) :=
  let num_faces := len face_nodes in
  let area := np_zeros num_faces in
  for_each (range num_faces)
    (face_step x y z face_nodes dim quadrature_rule order coords_type) area.

End FaceArea.

(** ** The face-area methods of [Grid] (grid.py) *)

(** The attributes of a [Grid] that the three methods read.  [Mesh2] and
    [_Mesh2_node_z] are read by [compute_face_areas] but not set by the class
    body under [src/], so they are optional here: reading an absent one
    raises [AttributeError]. *)
Record Grid (F : Type) : Type := MkGrid {
  _face_areas : option (list F);           (* None until computed *)
  Mesh2_node_x_units : option string;      (* self.Mesh2_node_x.units *)
  Mesh2_node_x : list F;                   (* self.Mesh2_node_x.data *)
  Mesh2_node_y : list F;                   (* self.Mesh2_node_y.data *)
  _Mesh2_node_z : option (list F);         (* self._Mesh2_node_z.data *)
  Mesh2_face_nodes : list (list Z);        (* self.Mesh2_face_nodes.data *)
  nNodes_per_face : list Z;                (* self.nNodes_per_face.data *)
  Mesh2 : option Z                         (* self.Mesh2's topology_dimension *)
}.

Arguments MkGrid {F}.
Arguments _face_areas {F} g.
Arguments Mesh2_node_x_units {F} g.
Arguments Mesh2_node_x {F} g.
Arguments Mesh2_node_y {F} g.
Arguments _Mesh2_node_z {F} g.
Arguments Mesh2_face_nodes {F} g.
Arguments nNodes_per_face {F} g.
Arguments Mesh2 {F} g.

Definition set_face_areas {F : Type} (g : Grid F) (c : option (list F))
  : Grid F :=
  MkGrid c (Mesh2_node_x_units g) (Mesh2_node_x g) (Mesh2_node_y g)
    (_Mesh2_node_z g) (Mesh2_face_nodes g) (nNodes_per_face g) (Mesh2 g).

(** [needle in haystack] on strings *)
Definition str_in (needle haystack : string) : bool :=
  match String.index 0 needle haystack with
  | Some _ => true
  | None => false
  end.

Definition getattr {A : Type} (name : string) (a : option A) : result A :=
  match a with
  | Some v => Ok v
  | None => Raise (AttributeError name)
  end.

Section Facade.

Context {F : Type} {FO : Float64 F}.

(** [uxarray.grid.area.get_all_face_area_from_coords], the nine-argument driver
    that grid.py imports; that module is not among the sources, so the driver
    is a parameter of the methods. *)
Variable area_driver :
  list F -> list F -> list F -> list (list Z) -> list Z -> Z ->
  string -> Z -> string -> result (list F).

(** [np.sum] of an array of floats: the order in which NumPy adds is not in
    the sources, so the sum is a parameter too. *)
Variable np_sum : list F -> F.

Local Open Scope py_scope.
Local Open Scope string_scope.

(** [arr.astype(float) if not np.issubdtype(arr[0], np.floating) else arr]:
    the elements are floats here; reading [arr[0]] still needs one. *)
Definition as_float_array (arr : list F) : result (list F) :=
  _ <- getitem arr 0 ;; Ok arr.

(** grid.py, [Grid.compute_face_areas(quadrature_rule="triangular", order=4)]:
    the value returned and the grid after the call. *)
Definition compute_face_areas (self : Grid F) (quadrature_rule : string)
  (order : Z) : result (list F * Grid F) :=
  units <- getattr "units" (Mesh2_node_x_units self) ;;
  let coords_type := if negb (str_in "degree" units) then "cartesian"
                     else "spherical" in
  let face_nodes := Mesh2_face_nodes self in
  let nNodes_per_face := nNodes_per_face self in
  dim <- getattr "Mesh2" (Mesh2 self) ;;
  let z := np_zeros (len (Mesh2_node_x self)) in
  let x := Mesh2_node_x self in
  let y := Mesh2_node_y self in
  topology_dimension <- getattr "Mesh2" (Mesh2 self) ;;
  z <- (if (topology_dimension >? 2)%Z
        then getattr "_Mesh2_node_z" (_Mesh2_node_z self) else Ok z) ;;
  x <- as_float_array x ;;
  y <- as_float_array y ;;
  z <- as_float_array z ;;
  areas <- area_driver x y z face_nodes nNodes_per_face dim quadrature_rule
             order coords_type ;;
  Ok (areas, set_face_areas self (Some areas)).

(** grid.py, [Grid.calculate_total_face_area] *)
Definition calculate_total_face_area (self : Grid F) (quadrature_rule : string)
  (order : Z) : result (F * Grid F) :=
  '(face_areas, self) <- compute_face_areas self quadrature_rule order ;;
  Ok (np_sum face_areas, self).

(** grid.py, the property [Grid.face_areas]: it returns [self._face_areas]. *)
Definition face_areas (self : Grid F) : result (option (list F) * Grid F) :=
  self <- match _face_areas self with
          | None =>
              '(_, self) <- compute_face_areas self "triangular" 4 ;; Ok self
          | Some _ => Ok self
          end ;;
  Ok (_face_areas self, self).

End Facade.

(** ** The two arithmetics *)

(** IEEE-754 binary64. *)
Module Binary64.
Import PrimFloat.

Definition of_Z (z : Z) : float :=
  match z with
  | Z0 => zero
  | Zpos _ => of_uint63 (Uint63.of_Z z)
  | Zneg _ => opp (of_uint63 (Uint63.of_Z (- z)))
  end.

Definition half : float := 0.5%float.

(** The one-point triangular rule on one octant of the sphere, and on two. *)
Definition one_octant : float := 0x1.4c8dc2e423979p+1%float.
Definition two_octants : float := 0x1.4c8dc2e423979p+2%float.

End Binary64.

#[export] Instance Float64_float : Float64 PrimFloat.float := {
  f_of_Z := Binary64.of_Z;
  f_half := Binary64.half;
  fadd := PrimFloat.add;
  fsub := PrimFloat.sub;
  fmul := PrimFloat.mul;
  fdiv := PrimFloat.div;
  fneg := PrimFloat.opp;
  fsqrt := PrimFloat.sqrt
}.

(** Exact real arithmetic. *)
#[export] Instance Float64_R : Float64 R := {
  f_of_Z := IZR;
  f_half := (/ 2)%R;
  fadd := Rplus;
  fsub := Rminus;
  fmul := Rmult;
  fdiv := Rdiv;
  fneg := Ropp;
  fsqrt := sqrt
}.

Definition radians (deg : R) : R := (deg * (PI / 180))%R.

#[export] Instance Trig_R : Trig R := {
  fcos := cos;
  fsin := sin;
  deg2rad := radians
}.

(** The vector [(r cos(lat) cos(lon), r cos(lat) sin(lon), r sin(lat))] for
    a longitude and a latitude in degrees. *)
Definition sphere_point (lon lat r : R) : vec3 R :=
  V3 (r * cos (radians lat) * cos (radians lon))%R
     (r * cos (radians lat) * sin (radians lon))%R
     (r * sin (radians lat))%R.

(** ** Sample quadrature tables *)

Section SampleTables.

Context {F : Type} {FO : Float64 F}.

(** Modelled from the spec: the table module [get_quadratureDG] is not among
    the sources; section 4.1 fixes the shape of what it returns (a row of
    abscissae with as many weights for "gaussian", a two-column table of
    barycentric points with one weight each for "triangular") and that an
    order without a table is refused.  The two providers below serve order 1
    with one-point rules of that shape (the midpoint of [0,1], the centroid),
    and are used only to run the code on concrete faces. *)
Definition sample_gauss (order : Z) : result (tables F) :=
  if (order =? 1)%Z then Ok ([[f_half]], [f1])
  else Raise (OtherError "UnsupportedOrder").

Definition sample_tri (order : Z) : result (tables F) :=
  let third := fdiv f1 (f_of_Z 3) in
  if (order =? 1)%Z then Ok ([[third; third; third]], [f1])
  else Raise (OtherError "UnsupportedOrder").

End SampleTables.

(** ** A sample mesh in binary64

    Four nodes on the unit sphere, in cartesian coordinates: the three unit
    vectors and (0,-1,0).  Nodes 0,1,2 span one octant; nodes 0,2,3 span the
    neighbouring one. *)
Definition mesh_x : list PrimFloat.float := map f_of_Z [1; 0; 0; 0]%Z.
Definition mesh_y : list PrimFloat.float := map f_of_Z [0; 1; 0; -1]%Z.
Definition mesh_z : list PrimFloat.float := map f_of_Z [0; 0; 1; 0]%Z.

(** Two antipodal corners, (1,0,0) and (-1,0,0), and (0,1,0). *)
Definition antipodal_p1 : vec3 PrimFloat.float :=
  V3 (f_of_Z 1) (f_of_Z 0) (f_of_Z 0).
Definition antipodal_p2 : vec3 PrimFloat.float :=
  V3 (f_of_Z (-1)) (f_of_Z 0) (f_of_Z 0).
Definition antipodal_p3 : vec3 PrimFloat.float :=
  V3 (f_of_Z 0) (f_of_Z 1) (f_of_Z 0).

(** The smallest 64-bit integer, [np.iinfo(np.intp).min]: a fill value far
    out of range.  ([uxarray.constants.INT_FILL_VALUE] is not among the
    sources; the docstring of [Mesh2_face_nodes] names -1.) *)
Definition int64_min : Z := (- 2 ^ 63)%Z.

Section SampleMesh.

Context {TR : Trig PrimFloat.float}.

(** The driver on the sample mesh: three dimensions, cartesian coordinates,
    the triangular rule of order 1. *)
Definition sample_mesh_areas (face_nodes : list (list Z))
  : result (list PrimFloat.float) :=
  get_all_face_area_from_coords sample_gauss sample_tri mesh_x mesh_y mesh_z
    face_nodes 3 "triangular"%string 1 "cartesian"%string.

End SampleMesh.

(** ** The integrator as the specification words it *)

Section FaceAreaSpec.

Context {F : Type} {FO : Float64 F} {TR : Trig F}.

Local Open Scope num_scope.

Definition triangle : Type := (vec3 F * vec3 F * vec3 F)%type.

(** Node [i] of a face given by its three coordinate arrays. *)
Definition face_node (x y z : list F) (i : nat) : vec3 F :=
  V3 (nth i x f0) (nth i y f0) (nth i z f0).

(** Fan triangulation: [(node[0], node[j+1], node[j+2])] for [j = 0 .. N-3]. *)
Definition fan_triangles (x y z : list F) : list triangle :=
  map (fun j => (face_node x y z 0, face_node x y z (j + 1),
                 face_node x y z (j + 2)))
      (seq 0 (List.length x - 2)).

(** Corner points as the Jacobians see them: projected when spherical. *)
Definition prepare (coords_type : string) (t : triangle) : triangle :=
  let '(n1, n2, n3) := t in
  if (coords_type =? "spherical")%string then
    (_spherical_to_cartesian_unit_ n1 r_default,
     _spherical_to_cartesian_unit_ n2 r_default,
     _spherical_to_cartesian_unit_ n3 r_default)
  else t.

(** Gaussian rule: all pairs [(p, q)] of indices into the weights. *)
Definition gaussian_terms (dG : list (list F)) (dW : list F) (t : triangle)
  : list F :=
  let '(n1, n2, n3) := t in
  let g := nth 0 dG [] in
  flat_map (fun p =>
    map (fun q =>
           nth p dW f0 * nth q dW f0
           * calculate_spherical_triangle_jacobian n1 n2 n3
               (nth p g f0) (nth q g f0))
        (seq 0 (List.length dW)))
    (seq 0 (List.length dW)).

(** Triangular rule: one term per listed barycentric point. *)
Definition triangular_terms (dG : list (list F)) (dW : list F) (t : triangle)
  : list F :=
  let '(n1, n2, n3) := t in
  map (fun p =>
         nth p dW f0
         * calculate_spherical_triangle_jacobian_barycentric n1 n2 n3
             (nth 0 (nth p dG []) f0) (nth 1 (nth p dG []) f0))
      (seq 0 (List.length dW)).

Definition rule_terms (quadrature_rule : string) (dG : list (list F))
  (dW : list F) (t : triangle) : list F :=
  if (quadrature_rule =? "gaussian")%string then gaussian_terms dG dW t
  else triangular_terms dG dW t.

(** A running sum: the terms are added in order, starting from 0.0. *)
Definition running_sum (terms : list F) : F := fold_left fadd terms f0.

(** The sum over all triangles and all quadrature points. *)
Definition fan_quadrature_sum (x y z : list F) (quadrature_rule : string)
  (dG : list (list F)) (dW : list F) (coords_type : string) : F :=
  running_sum (flat_map (fun t => rule_terms quadrature_rule dG dW
                                    (prepare coords_type t))
                        (fan_triangles x y z)).

(** A table has the shape its rule reads. *)
Definition gaussian_shape (dG : list (list F)) (dW : list F) : Prop :=
  (1 <= List.length dG)%nat
  /\ (List.length dW <= List.length (nth 0 dG []))%nat.

Definition triangular_shape (dG : list (list F)) (dW : list F) : Prop :=
  (List.length dW <= List.length dG)%nat /\
  forall p, (p < List.length dW)%nat -> (2 <= List.length (nth p dG []))%nat.

(** The rule is one of the two, and the table has the shape it reads. *)
Definition rule_ready (quadrature_rule : string) (dG : list (list F))
  (dW : list F) : Prop :=
  (quadrature_rule = "gaussian"%string /\ gaussian_shape dG dW)
  \/ (quadrature_rule = "triangular"%string /\ triangular_shape dG dW).

End FaceAreaSpec.

Section ProviderContract.

Context {F : Type} {FO : Float64 F}.
Variable get_gauss_quadratureDG : Z -> result (tables F).
Variable get_tri_quadratureDG : Z -> result (tables F).

(** [(dG, dW)] is what the provider of the rule returns for the order. *)
Definition provided (quadrature_rule : string) (order : Z)
  (dG : list (list F)) (dW : list F) : Prop :=
  (quadrature_rule = "gaussian"%string ->
   get_gauss_quadratureDG order = Ok (dG, dW))
  /\ (quadrature_rule = "triangular"%string ->
      get_tri_quadratureDG order = Ok (dG, dW)).

(** The order is supported for the rule: when the rule is one of the two,
    its provider returns a table of the shape the rule reads. *)
Definition supported (quadrature_rule : string) (order : Z) : Prop :=
  quadrature_rule = "gaussian"%string
  \/ quadrature_rule = "triangular"%string ->
  exists dG dW,
    provided quadrature_rule order dG dW /\ rule_ready quadrature_rule dG dW.

End ProviderContract.

(** ** The driver, row by row *)

Section DriverRows.

Context {F : Type} {FO : Float64 F} {TR : Trig F}.
Variable get_gauss_quadratureDG : Z -> result (tables F).
Variable get_tri_quadratureDG : Z -> result (tables F).

(** The arrays [face_x], [face_y], [face_z] after the passes over the first
    entries [done] of a row whose other entries are [todo]. *)
Definition gathered (x y z : list F) (dim : Z) (done todo : list Z)
  : list F * list F * list F :=
  let rest := repeat f0 (List.length todo) in
  (map (item x f0) done ++ rest,
   map (item y f0) done ++ rest,
   (if (dim >? 2)%Z then map (item z f0) done
    else repeat f0 (List.length done)) ++ rest).

(** The face the driver hands the integrator for a row of the connectivity:
    the coordinates at every entry of the row. *)
Definition row_area (x y z : list F) (dim : Z) (quadrature_rule : string)
  (order : Z) (coords_type : string) (face : list Z) : result F :=
  calculate_face_area get_gauss_quadratureDG get_tri_quadratureDG
    (map (item x f0) face) (map (item y f0) face)
    (if (dim >? 2)%Z then map (item z f0) face
     else repeat f0 (List.length face))
    quadrature_rule order coords_type.

End DriverRows.

(** ** The Jacobian evaluators as the specification words them *)

Section JacobianSpec.

Context {F : Type} {FO : Float64 F}.

Local Open Scope num_scope.

Definition vsub (a b : vec3 F) : vec3 F :=
  V3 (c0 a - c0 b) (c1 a - c1 b) (c2 a - c2 b).

(** [F(a,b) = (1-b)*((1-a)*p1 + a*p2) + b*p3] and its two partials. *)
Definition tensor_point (p1 p2 p3 : vec3 F) (a b : F) : vec3 F :=
  V3 ((f1 - b) * ((f1 - a) * c0 p1 + a * c0 p2) + b * c0 p3)
     ((f1 - b) * ((f1 - a) * c1 p1 + a * c1 p2) + b * c1 p3)
     ((f1 - b) * ((f1 - a) * c2 p1 + a * c2 p2) + b * c2 p3).

Definition tensor_da (p1 p2 : vec3 F) (b : F) : vec3 F :=
  V3 ((f1 - b) * (c0 p2 - c0 p1))
     ((f1 - b) * (c1 p2 - c1 p1))
     ((f1 - b) * (c2 p2 - c2 p1)).

Definition tensor_db (p1 p2 p3 : vec3 F) (a : F) : vec3 F :=
  V3 (- (f1 - a) * c0 p1 - a * c0 p2 + c0 p3)
     (- (f1 - a) * c1 p1 - a * c1 p2 + c1 p3)
     (- (f1 - a) * c2 p1 - a * c2 p2 + c2 p3).

(** [F(a,b) = a*p1 + b*p2 + (1-a-b)*p3]; its partials are [p1 - p3] and
    [p2 - p3]. *)
Definition barycentric_point (p1 p2 p3 : vec3 F) (a b : F) : vec3 F :=
  V3 (a * c0 p1 + b * c0 p2 + (f1 - a - b) * c0 p3)
     (a * c1 p1 + b * c1 p2 + (f1 - a - b) * c1 p3)
     (a * c2 p1 + b * c2 p2 + (f1 - a - b) * c2 p3).

(** The derivative of [F/|F|] along a partial [D], before the scaling by
    [1/|F|^3]: component [k] is [D_k*(F.F - F_k^2) - F_k*(D.F - D_k*F_k)]. *)
Definition tangent_part (P D : vec3 F) : vec3 F :=
  V3 (c0 D * (c1 P * c1 P + c2 P * c2 P)
      - c0 P * (c1 D * c1 P + c2 D * c2 P))
     (c1 D * (c0 P * c0 P + c2 P * c2 P)
      - c1 P * (c0 D * c0 P + c2 D * c2 P))
     (c2 D * (c0 P * c0 P + c1 P * c1 P)
      - c2 P * (c0 D * c0 P + c1 D * c1 P)).

(** The derivative-of-normalized-projection procedure: scale both tangent
    parts by [r^3], [r = 1/|F|], and take the norm of their cross product. *)
Definition projected_cross_norm (P Da Db : vec3 F) : F :=
  let r := f1 / np_linalg_norm P in
  let r3 := r * r * r in
  np_linalg_norm (np_cross (vscale (tangent_part P Da) r3)
                           (vscale (tangent_part P Db) r3)).

End JacobianSpec.

(** ** Encoding a grid (grid.py) *)

Section Encoding.

Context {F : Type} {FO : Float64 F}.

Variable area_driver :
  list F -> list F -> list F -> list (list Z) -> list Z -> Z ->
  string -> Z -> string -> result (list F).

(** [xarray.Dataset], and the dictionary [grid_var_names]. *)
Variables Dataset Names : Type.

(** The three encoders of [uxarray.io], modules that are not among the
    sources; [_encode_scrip] is handed what the property [face_areas]
    returns. *)
Variable _encode_ugrid : Dataset -> result Dataset.
Variable _encode_exodus : Dataset -> Names -> result Dataset.
Variable _encode_scrip :
  list (list Z) -> list F -> list F -> option (list F) -> result Dataset.

Local Open Scope py_scope.
Local Open Scope string_scope.

(** What [encode_as] raises for a grid type it does not know. *)
Definition unsupported_grid_type : exn := OtherError "RuntimeError".

(** grid.py, [Grid.encode_as(grid_type)]: the dataset returned and the grid
    after the call.  [_ds] is the attribute [self._ds]; [grid_var_names] is
    an attribute that the class body never sets, so it is optional. *)
Definition encode_as (self : Grid F) (_ds : Dataset)
  (grid_var_names : option Names) (grid_type : string)
  : result (Dataset * Grid F) :=
  if grid_type =? "ugrid" then
    out_ds <- _encode_ugrid _ds ;; Ok (out_ds, self)
  else if grid_type =? "exodus" then
    names <- getattr "grid_var_names" grid_var_names ;;
    out_ds <- _encode_exodus _ds names ;; Ok (out_ds, self)
  else if grid_type =? "scrip" then
    let face_nodes := Mesh2_face_nodes self in
    let x := Mesh2_node_x self in
    let y := Mesh2_node_y self in
    '(areas, self) <- face_areas area_driver self ;;
    out_ds <- _encode_scrip face_nodes x y areas ;; Ok (out_ds, self)
  else Raise unsupported_grid_type.

End Encoding.

(** ** File-type detection (helpers.py) *)

Module FileType.

Local Open Scope string_scope.

(** The classes by which the [except] clauses of [determine_file_type] tell
    exceptions apart.  Each stands for the class and its subclasses;
    [OtherException] is any exception that is none of them. *)
Inductive exc_class : Type :=
| KeyError
| TypeError
| AttributeError
| RuntimeError
| OSError
| ValueError
| IndexError
| OtherException.

(** A raised exception: its class and [str(e)]. *)
Record exc : Type := Exc { exc_kind : exc_class; exc_str : string }.

Inductive outcome (A : Type) : Type :=
| Return (a : A)
| Raised (e : exc).

Arguments Return {A} a.
Arguments Raised {A} e.

Definition and_then {A B : Type} (c : outcome A) (k : A -> outcome B)
  : outcome B :=
  match c with
  | Return a => k a
  | Raised e => Raised e
  end.

Definition is_KeyError (e : exc) : bool :=
  match exc_kind e with KeyError => true | _ => false end.

(** The call raises an exception of class [k]. *)
Definition raises_kind {A : Type} (c : outcome A) (k : exc_class) : Prop :=
  exists e, c = Raised e /\ exc_kind e = k.

(** [list(keys)[0]] *)
Definition first_key (keys : list string) : outcome string :=
  match keys with
  | [] => Raised (Exc IndexError "list index out of range")
  | k :: _ => Return k
  end.

(** The error of the [else] branch of the UGRID test. *)
Definition not_ugrid_error : exc :=
  Exc ValueError
    ("cf_role is other than mesh_topology, "
     ++ "the input NetCDF file is not UGRID format").

(** What the [finally] clause raises when [msg] is set. *)
Definition unsupported_error (filepath : string) : exc :=
  Exc ValueError
    ("Unable to determine file type, mesh file not supported" ++ ": "
     ++ filepath).

(** What the function calls outside the sources, xarray and pathlib:
    - [open_dataset site filepath] is
      [xr.open_dataset(filepath, mask_and_scale=False)] at the first, second,
      third or fourth place where the function calls it ([site] 0 to 3);
    - [dataset_getitem ds name] is [ds[name]];
    - [filter_by_attrs_keys ds attr] is the list of
      [ds.filter_by_attrs(attr=...).keys()];
    - [path_suffix filepath] is [PurePath(filepath).suffix]. *)
Record world : Type := World {
  dataset : Type;
  open_dataset : nat -> string -> outcome dataset;
  dataset_getitem : dataset -> string -> outcome unit;
  filter_by_attrs_keys : dataset -> string -> outcome (list string);
  path_suffix : string -> string
}.

Section DetermineFileType.

Variable w : world.

(** [xr.open_dataset(filepath, mask_and_scale=False)[name]] at place [site]. *)
Definition probe (site : nat) (filepath name : string) : outcome unit :=
  and_then (open_dataset w site filepath)
    (fun ds => dataset_getitem w ds name).

(** The body of the innermost [try]: the UGRID test. *)
Definition ugrid_probe (filepath : string) : outcome string :=
  and_then (open_dataset w 3 filepath) (fun ext_ds =>
  and_then (filter_by_attrs_keys w ext_ds "node_coordinates")
    (fun node_coords_dv =>
  and_then (filter_by_attrs_keys w ext_ds "face_node_connectivity")
    (fun face_conn_dv =>
  and_then (filter_by_attrs_keys w ext_ds "topology_dimension")
    (fun topo_dim_dv =>
  and_then (filter_by_attrs_keys w ext_ds "cf_role") (fun mesh_topo_dv =>
  and_then (first_key mesh_topo_dv) (fun k1 =>
  if k1 =? "" then Raised not_ugrid_error else
  and_then (first_key topo_dim_dv) (fun k2 =>
  if k2 =? "" then Raised not_ugrid_error else
  and_then (first_key face_conn_dv) (fun k3 =>
  if k3 =? "" then Raised not_ugrid_error else
  and_then (first_key node_coords_dv) (fun k4 =>
  if k4 =? "" then Raised not_ugrid_error else
  Return "ugrid"))))))))).

(** [str(e) + ': {}'.format(filepath)] *)
Definition describe (e : exc) (filepath : string) : string :=
  exc_str e ++ ": " ++ filepath.

(** The [try] statement with its handlers: what it leaves in flight (the
    value of [mesh_filetype], or an exception) and the value of [msg]. *)
Definition try_part (filepath : string) : outcome string * string :=
  let msg := "" in
  let mesh_filetype := "unknown" in
  let file_extension := path_suffix w filepath in
  match probe 0 filepath "coord" with
  | Return _ => (Return "exo", msg)
  | Raised e =>
      match exc_kind e with
      | KeyError =>
          match probe 1 filepath "coordx" with
          | Return _ => (Return "exo", msg)
          | Raised e1 =>
              if is_KeyError e1 then
                match probe 2 filepath "grid_center_lon" with
                | Return _ => (Return "scrip", msg)
                | Raised e2 =>
                    if is_KeyError e2 then
                      match ugrid_probe filepath with
                      | Return t => (Return t, msg)
                      | Raised e3 =>
                          if is_KeyError e3
                          then (Return mesh_filetype, describe e3 filepath)
                          else (Raised e3, msg)
                      end
                    else (Raised e2, msg)
                end
              else (Raised e1, msg)
          end
      | TypeError | AttributeError =>
          (Return mesh_filetype, describe e filepath)
      | RuntimeError | OSError | ValueError =>
          if file_extension =? ".shp" then (Return "shp", msg)
          else (Return mesh_filetype, describe e filepath)
      | IndexError | OtherException => (Raised e, msg)
      end
  end.

(** helpers.py, [determine_file_type]: the [finally] clause, then the
    [return]. *)
Definition determine_file_type (filepath : string) : outcome string :=
  let '(in_flight, msg) := try_part filepath in
  if negb (msg =? "") then Raised (unsupported_error filepath)
  else in_flight.

(** The first attempt fails in a way the shapefile test handles. *)
Definition shp_candidate (filepath : string) : Prop :=
  raises_kind (probe 0 filepath "coord") RuntimeError
  \/ raises_kind (probe 0 filepath "coord") OSError
  \/ raises_kind (probe 0 filepath "coord") ValueError.

(** Neither "coord" nor "coordx" is in the file: both lookups raise
    [KeyError]. *)
Definition no_exodus (filepath : string) : Prop :=
  raises_kind (probe 0 filepath "coord") KeyError
  /\ raises_kind (probe 1 filepath "coordx") KeyError.

(** Nor is "grid_center_lon". *)
Definition no_scrip (filepath : string) : Prop :=
  no_exodus filepath
  /\ raises_kind (probe 2 filepath "grid_center_lon") KeyError.

(** The ways in which a file type is returned. *)
Definition returns_as (filepath t : string) : Prop :=
  (t = "exo"
   /\ (probe 0 filepath "coord" = Return tt
       \/ (raises_kind (probe 0 filepath "coord") KeyError
           /\ probe 1 filepath "coordx" = Return tt)))
  \/ (t = "scrip"
      /\ no_exodus filepath
      /\ probe 2 filepath "grid_center_lon" = Return tt)
  \/ (t = "ugrid"
      /\ no_scrip filepath
      /\ ugrid_probe filepath = Return "ugrid")
  \/ (t = "shp"
      /\ shp_candidate filepath
      /\ path_suffix w filepath = ".shp").

(** The ways in which [msg] is set. *)
Definition gives_up (filepath : string) : Prop :=
  raises_kind (probe 0 filepath "coord") TypeError
  \/ raises_kind (probe 0 filepath "coord") AttributeError
  \/ (shp_candidate filepath /\ path_suffix w filepath <> ".shp")
  \/ (no_scrip filepath /\ raises_kind (ugrid_probe filepath) KeyError).

(** The ways in which [e] is raised where no handler of the function
    catches it: in the first attempt when it is of no class the handlers
    name, in a later attempt when it is no [KeyError]. *)
Definition escapes (filepath : string) (e : exc) : Prop :=
  (probe 0 filepath "coord" = Raised e
   /\ (exc_kind e = IndexError \/ exc_kind e = OtherException))
  \/ (exc_kind e <> KeyError
      /\ ((raises_kind (probe 0 filepath "coord") KeyError
           /\ probe 1 filepath "coordx" = Raised e)
          \/ (no_exodus filepath
              /\ probe 2 filepath "grid_center_lon" = Raised e)
          \/ (no_scrip filepath /\ ugrid_probe filepath = Raised e))).

(** The list has a first key, and it is not the empty string. *)
Definition named_first (keys : list string) : Prop :=
  exists k rest, keys = k :: rest /\ k <> "".

End DetermineFileType.

(** A sample of the outside world: a file is a list of variable names, with
    the names carrying each of the four UGRID attributes, or cannot be
    opened. *)
Record sample_file : Type := SampleFile {
  variables : list string;
  with_node_coordinates : list string;
  with_face_node_connectivity : list string;
  with_topology_dimension : list string;
  with_cf_role_mesh_topology : list string
}.

Definition sample_getitem (f : sample_file) (name : string) : outcome unit :=
  if existsb (String.eqb name) (variables f) then Return tt
  else Raised (Exc KeyError name).

Definition sample_filter (f : sample_file) (attr : string)
  : outcome (list string) :=
  if attr =? "node_coordinates" then Return (with_node_coordinates f)
  else if attr =? "face_node_connectivity"
  then Return (with_face_node_connectivity f)
  else if attr =? "topology_dimension" then Return (with_topology_dimension f)
  else Return (with_cf_role_mesh_topology f).

(** The suffix of a sample path: from its last dot on, or empty. *)
Fixpoint from_last_dot (s : string) : option string :=
  match s with
  | EmptyString => None
  | String c rest =>
      match from_last_dot rest with
      | Some t => Some t
      | None => if String c "" =? "." then Some s else None
      end
  end.

Definition sample_suffix (filepath : string) : string :=
  match from_last_dot filepath with
  | Some t => t
  | None => ""
  end.

(** A file that holds two data variables and no mesh. *)
Definition plain_file : sample_file :=
  SampleFile ["time"; "temperature"] [] [] [] [].

(** The world in which every call opens [file] or fails the same way. *)
Definition sample_world (file : outcome sample_file) : world :=
  World sample_file (fun _ _ => file) sample_getitem sample_filter
    sample_suffix.

End FileType.

(** ** Construction, copy and cached views of a grid (grid.py) *)

Module GridObject.

Local Open Scope string_scope.

(** A raised exception: the name of its class and its message.  The methods
    below catch nothing, so the class is only reported. *)
Record exception : Type :=
  Exception { class_name : string; message : string }.

Inductive outcome (A : Type) : Type :=
| Return (a : A)
| Raised (e : exception).

Arguments Return {A} a.
Arguments Raised {A} e.

Definition and_then {A B : Type} (c : outcome A) (k : A -> outcome B)
  : outcome B :=
  match c with
  | Return a => k a
  | Raised e => Raised e
  end.

Declare Scope obj_scope.
Delimit Scope obj_scope with obj.
Notation "x <- c ;; k" := (and_then c (fun x => k))
  (at level 61, c at next level, right associativity) : obj_scope.
Notation "' p <- c ;; k" := (and_then c (fun x => let p := x in k))
  (at level 61, p pattern, c at next level, right associativity) : obj_scope.

(** The call raises an exception of the class named [cls]. *)
Definition raises_class {A : Type} (c : outcome A) (cls : string) : Prop :=
  exists e, c = Raised e /\ class_name e = cls.

(** An argument as an [isinstance] test sees it: of the expected type, with
    its value, or of any other type. *)
Inductive argument (A : Type) : Type :=
| Instance (a : A)
| NotInstance.

Arguments Instance {A} a.
Arguments NotInstance {A}.

(** [str(n)] for an integer. *)
Definition show_Z (n : Z) : string := NilZero.string_of_int (Z.to_int n).

Local Open Scope obj_scope.

(** The types of the values the class handles without looking inside:
    [xarray.Dataset]; the mapping a reader returns; what a [list], [tuple] or
    [ndarray] argument holds; [numpy.ndarray]; the array of face areas; the
    antimeridian face indices; [GeoDataFrame]; [PolyCollection]; the list
    [corrected_to_original_faces]; the values of the attributes that only
    [copy] reads; [xarray.DataArray]. *)
Class types : Type := Types {
  Dataset : Type;
  Mapping : Type;
  Sequence : Type;
  Array : Type;
  Areas : Type;
  Indices : Type;
  Frame : Type;
  Collection : Type;
  Faces : Type;
  Attribute : Type;
  DataArray : Type
}.

Section Object.

Context {T : types}.

(** The attributes of a [Grid] object.  The first seven are those that
    [__init__] sets; the next six are read by [copy], and the dictionary
    [grid_var_names] by [__eq__]; these are set nowhere in the class, so an
    object has them only when they were assigned from outside. *)
Record grid : Type := Object {
  _ugrid_mapping : option Mapping;
  _face_areas : option Areas;
  _antimeridian_face_indices : option Indices;
  _gdf : option Frame;
  _poly_collection : option Collection;
  _ds : Dataset;
  grid_spec : string;
  gridspec : option Attribute;
  vertices : option Attribute;
  islatlon : option Attribute;
  isconcave : option Attribute;
  source_grid : option Attribute;
  use_dual : option Attribute;
  grid_var_names : option (list (string * string))
}.

(** The functions of other modules that the methods call: the grid-type
    parser and the readers of [uxarray.io]; [np.asarray], [ndarray.ndim] and
    [np.array([a])]; [xr.Dataset(ds)]; the builders of
    [uxarray.grid.geometry], which are handed the grid itself and may assign
    to its attributes, so each returns the grid as it leaves it;
    [name in ds.data_vars], [ds[name]] and [a.equals(b)] of xarray. *)
Record library : Type := Library {
  _parse_grid_type : Dataset -> outcome string;
  _read_exodus : Dataset -> outcome (Dataset * Mapping);
  _read_scrip : Dataset -> outcome (Dataset * Mapping);
  _read_ugrid : Dataset -> outcome (Dataset * Mapping);
  _read_mpas : Dataset -> bool -> outcome (Dataset * Mapping);
  np_asarray : Sequence -> outcome Array;
  ndim : Array -> Z;
  np_array_of_one : Array -> outcome Array;
  _read_face_vertices : Array -> bool -> outcome Dataset;
  xr_Dataset : Dataset -> outcome Dataset;
  _grid_to_polygon_geodataframe : grid -> bool -> outcome (Frame * grid);
  _grid_to_matplotlib_polycollection :
    grid -> outcome (Collection * Faces * grid);
  in_data_vars : Dataset -> string -> bool;
  dataset_getitem : Dataset -> string -> outcome DataArray;
  equals : DataArray -> DataArray -> outcome bool
}.

Variable lib : library.

(** What a call raises that leaves the required parameter [grid_spec] of
    [__init__] without an argument. *)
Definition missing_grid_spec : exception :=
  Exception "TypeError"
    "Grid.__init__() missing 1 required positional argument: 'grid_spec'".

(** grid.py, [Grid.__init__(self, grid_ds, grid_spec, ugrid_mapping=None,
    **kwargs)].  [grid_spec] is [None] here when the call gives the parameter
    no argument; [ugrid_mapping] is [None] for Python's [None], its default;
    [kwargs] collects the keyword arguments of other names and is not
    read. *)
Definition __init__ (grid_ds : Dataset) (grid_spec : option string)
  (ugrid_mapping : option Mapping) (kwargs : list (string * Attribute))
  : outcome grid :=
  match grid_spec with
  | None => Raised missing_grid_spec
  | Some grid_spec =>
      Return (Object ugrid_mapping None None None None grid_ds grid_spec
                None None None None None None None)
  end.

(** *** [from_dataset] *)

(** A bare [raise ValueError]. *)
Definition bare_ValueError : exception := Exception "ValueError" "".

(** Reading the local variable [name] before any assignment to it. *)
Definition unbound_local (name : string) : exception :=
  Exception "UnboundLocalError"
    ("cannot access local variable '" ++ name
     ++ "' where it is not associated with a value").

(** The [if]/[elif] chain of [from_dataset]: the local variables [grid_ds]
    and [ugrid_mapping] after it, [None] when the [else: pass] branch left
    them unassigned. *)
Definition read_grid (grid_spec : string) (dataset : Dataset)
  (use_dual : bool) : outcome (option (Dataset * Mapping)) :=
  if grid_spec =? "Exodus" then
    r <- _read_exodus lib dataset ;; Return (Some r)
  else if grid_spec =? "Scrip" then
    r <- _read_scrip lib dataset ;; Return (Some r)
  else if grid_spec =? "UGRID" then
    r <- _read_ugrid lib dataset ;; Return (Some r)
  else if grid_spec =? "MPAS" then
    r <- _read_mpas lib dataset use_dual ;; Return (Some r)
  else if grid_spec =? "Shapefile" then Raised bare_ValueError
  else Return None.

(** grid.py, [Grid.from_dataset(dataset, use_dual=False)] *)
Definition from_dataset (dataset : argument Dataset) (use_dual : bool)
  : outcome grid :=
  match dataset with
  | NotInstance => Raised bare_ValueError
  | Instance dataset =>
      grid_spec <- _parse_grid_type lib dataset ;;
      assigned <- read_grid grid_spec dataset use_dual ;;
      match assigned with
      | None => Raised (unbound_local "grid_ds")
      | Some (grid_ds, ugrid_mapping) =>
          __init__ grid_ds (Some grid_spec) (Some ugrid_mapping) []
      end
  end.

(** *** [from_face_vertices] *)

Definition invalid_dimension (n : Z) : exception :=
  Exception "RuntimeError"
    ("Invalid Input Dimension: " ++ show_Z n
     ++ ". Expected dimension should be "
     ++ "3: [nMesh2_face, nMesh2_node, Two/Three] or 2 when only "
     ++ "one face is passed in.").

(** grid.py, [Grid.from_face_vertices(face_vertices, latlon=True)] *)
Definition from_face_vertices (face_vertices : argument Sequence)
  (latlon : bool) : outcome grid :=
  match face_vertices with
  | NotInstance => Raised bare_ValueError
  | Instance face_vertices =>
      face_vertices <- np_asarray lib face_vertices ;;
      grid_ds <-
        (if (ndim lib face_vertices =? 3)%Z then
           _read_face_vertices lib face_vertices latlon
         else if (ndim lib face_vertices =? 2)%Z then
           wrapped <- np_array_of_one lib face_vertices ;;
           _read_face_vertices lib wrapped latlon
         else Raised (invalid_dimension (ndim lib face_vertices))) ;;
      __init__ grid_ds (Some "Face Vertices") None []
  end.

(** *** [copy] *)

(** [self.name] for an attribute the object may lack. *)
Definition read_attribute {A : Type} (name : string) (a : option A)
  : outcome A :=
  match a with
  | Some v => Return v
  | None =>
      Raised (Exception "AttributeError"
                ("'Grid' object has no attribute '" ++ name ++ "'"))
  end.

(** grid.py, [Grid.copy]: the arguments are evaluated from left to right,
    then [Grid] is called with one positional argument and six keyword
    arguments, none of them named [grid_spec]. *)
Definition copy (self : grid) : outcome grid :=
  grid_ds <- xr_Dataset lib (_ds self) ;;
  a1 <- read_attribute "gridspec" (gridspec self) ;;
  a2 <- read_attribute "vertices" (vertices self) ;;
  a3 <- read_attribute "islatlon" (islatlon self) ;;
  a4 <- read_attribute "isconcave" (isconcave self) ;;
  a5 <- read_attribute "source_grid" (source_grid self) ;;
  a6 <- read_attribute "use_dual" (use_dual self) ;;
  __init__ grid_ds None None
    [("gridspec", a1); ("vertices", a2); ("islatlon", a3);
     ("isconcave", a4); ("source_grid", a5); ("use_dual", a6)].

(** *** Cached views *)

Definition set_gdf (self : grid) (v : option Frame) : grid :=
  Object (_ugrid_mapping self) (_face_areas self)
    (_antimeridian_face_indices self) v (_poly_collection self) (_ds self)
    (grid_spec self) (gridspec self) (vertices self) (islatlon self)
    (isconcave self) (source_grid self) (use_dual self)
    (grid_var_names self).

Definition set_poly_collection (self : grid) (v : option Collection) : grid :=
  Object (_ugrid_mapping self) (_face_areas self)
    (_antimeridian_face_indices self) (_gdf self) v (_ds self)
    (grid_spec self) (gridspec self) (vertices self) (islatlon self)
    (isconcave self) (source_grid self) (use_dual self)
    (grid_var_names self).

(** grid.py, [Grid.to_geodataframe(override=False, cache=True,
    correct_antimeridian_polygons=True)]: the frame returned and the grid
    after the call. *)
Definition to_geodataframe (self : grid)
  (override cache correct_antimeridian_polygons : bool)
  : outcome (Frame * grid) :=
  match _gdf self, override with
  | Some gdf, false => Return (gdf, self)
  | _, _ =>
      '(gdf, self) <-
        _grid_to_polygon_geodataframe lib self
          correct_antimeridian_polygons ;;
      let self := if cache then set_gdf self (Some gdf) else self in
      Return (gdf, self)
  end.

(** What [to_polycollection] returns: the cached collection alone, or the
    pair of a collection and the list [corrected_to_original_faces]. *)
Inductive polycollection_result : Type :=
| Alone (poly_collection : Collection)
| Paired (poly_collection : Collection) (corrected_to_original_faces : Faces).

Definition collection_of (r : polycollection_result) : Collection :=
  match r with
  | Alone pc => pc
  | Paired pc _ => pc
  end.

(** grid.py, [Grid.to_polycollection(override=False, cache=True,
    correct_antimeridian_polygons=True)]: the value returned and the grid
    after the call. *)
Definition to_polycollection (self : grid)
  (override cache correct_antimeridian_polygons : bool)
  : outcome (polycollection_result * grid) :=
  match _poly_collection self, override with
  | Some poly_collection, false => Return (Alone poly_collection, self)
  | _, _ =>
      '(poly_collection, corrected_to_original_faces, self) <-
        _grid_to_matplotlib_polycollection lib self ;;
      let self := if cache then set_poly_collection self (Some poly_collection)
                  else self in
      Return (Paired poly_collection corrected_to_original_faces, self)
  end.

(** *** [__eq__] and [__ne__] *)

(** [d[key]] on a dictionary given by its items. *)
Fixpoint dict_getitem (items : list (string * string)) (key : string)
  : outcome string :=
  match items with
  | [] => Raised (Exception "KeyError" ("'" ++ key ++ "'"))
  | (k, v) :: rest => if k =? key then Return v else dict_getitem rest key
  end.

(** One pass of the loop of [__eq__] over the items of
    [self.grid_var_names]: [Some b] when the pass returns [b], [None] when
    the loop goes on.  [self._ds.data_vars] is never [None]. *)
Definition eq_step (self other : grid) (item : string * string)
  : outcome (option bool) :=
  let '(key, value) := item in
  if in_data_vars lib (_ds self) value then
    mine <- dataset_getitem lib (_ds self) value ;;
    names <- read_attribute "grid_var_names" (grid_var_names other) ;;
    name <- dict_getitem names key ;;
    theirs <- dataset_getitem lib (_ds other) name ;;
    same <- equals lib mine theirs ;;
    Return (if negb same then Some false else None)
  else Return None.

Fixpoint eq_loop (self other : grid) (items : list (string * string))
  : outcome bool :=
  match items with
  | [] => Return true
  | item :: rest =>
      r <- eq_step self other item ;;
      match r with
      | Some b => Return b
      | None => eq_loop self other rest
      end
  end.

(** grid.py, [Grid.__eq__(other)]; the other operand is a grid, or [None]
    for Python's [None]. *)
Definition __eq__ (self : grid) (other : option grid) : outcome bool :=
  match other with
  | Some other =>
      items <- read_attribute "grid_var_names" (grid_var_names self) ;;
      eq_loop self other items
  | None => Return false
  end.

(** grid.py, [Grid.__ne__(other)] *)
Definition __ne__ (self : grid) (other : option grid) : outcome bool :=
  r <- __eq__ self other ;; Return (negb r).

End Object.

(** A small world in which the methods can be run: a frame records the flag
    it was built with, a collection is a number, every library call returns,
    and the parser answers "UGRID". *)
Definition sample_types : types :=
  Types unit unit unit unit unit unit bool nat (list nat) unit unit.

Definition sample_library : @library sample_types :=
  @Library sample_types (fun _ => Return "UGRID")
    (fun ds => Return (ds, tt)) (fun ds => Return (ds, tt))
    (fun ds => Return (ds, tt)) (fun ds _ => Return (ds, tt))
    (fun _ => Return tt) (fun _ => 3%Z) (fun a => Return a)
    (fun _ _ => Return tt) (fun ds => Return ds)
    (fun self correct => Return (correct, self))
    (fun self => Return (7%nat, [0%nat; 1%nat], self))
    (fun _ _ => true) (fun _ _ => Return tt) (fun _ _ => Return true).

(** The grid [__init__] makes of a dataset read as "UGRID". *)
Definition sample_grid : @grid sample_types :=
  @Object sample_types (Some tt) None None None None tt "UGRID"
    None None None None None None None.

End GridObject.

(** * Properties *)

(** ** Python sequences and loops *)

Lemma getitem_nth {A : Type} (l : list A) (n : nat) (d : A) :
  (n < List.length l)%nat -> getitem l (Z.of_nat n) = Ok (nth n l d).
Proof.
  intros Hn. unfold getitem, len.
  destruct (Z.of_nat n <? 0)%Z eqn:Hneg; [apply Z.ltb_lt in Hneg; lia|].
  replace ((0 <=? Z.of_nat n)%Z && (Z.of_nat n <? Z.of_nat (List.length l))%Z)
    with true by (symmetry; apply andb_true_iff; split;
                  [apply Z.leb_le | apply Z.ltb_lt]; lia).
  rewrite Nat2Z.id.
  destruct (nth_error l n) eqn:E.
  - f_equal. symmetry. apply nth_error_nth. exact E.
  - apply nth_error_None in E. lia.
Qed.

Lemma getitem_at {A : Type} (l : list A) (i : Z) (n : nat) (d : A) :
  i = Z.of_nat n -> (n < List.length l)%nat -> getitem l i = Ok (nth n l d).
Proof. intros ->. apply getitem_nth. Qed.

Lemma len_of_nat {A : Type} (l : list A) : len l = Z.of_nat (List.length l).
Proof. reflexivity. Qed.

Lemma range_of_nat (n : nat) : range (Z.of_nat n) = map Z.of_nat (seq 0 n).
Proof. unfold range. rewrite Nat2Z.id. reflexivity. Qed.

Lemma getitem_wrap {A : Type} (l : list A) (i : Z) (d : A) :
  subscript_ok (len l) i -> getitem l i = Ok (item l d i).
Proof.
  intros [Hlo Hhi]. unfold getitem, item, wrap.
  set (k := if (i <? 0)%Z then (i + len l)%Z else i).
  assert (Hk : (0 <= k < len l)%Z).
  { subst k. destruct (Z.ltb_spec i 0); lia. }
  replace ((0 <=? k)%Z && (k <? len l)%Z) with true
    by (symmetry; apply andb_true_iff; split;
        [apply Z.leb_le | apply Z.ltb_lt]; lia).
  destruct (nth_error l (Z.to_nat k)) eqn:E.
  - f_equal. symmetry. apply nth_error_nth. exact E.
  - apply nth_error_None in E. unfold len in Hk. lia.
Qed.

Lemma set_nth_middle {A : Type} (pre post : list A) (old v : A) :
  set_nth (pre ++ old :: post) (List.length pre) v = pre ++ v :: post.
Proof.
  induction pre as [|h pre IH]; simpl; [reflexivity | rewrite IH; reflexivity].
Qed.

Lemma setitem_middle {A : Type} (pre post : list A) (old v : A) :
  setitem (pre ++ old :: post) (Z.of_nat (List.length pre)) v
  = Ok (pre ++ v :: post).
Proof.
  unfold setitem, len. rewrite length_app. cbn [List.length].
  destruct (Z.ltb_spec (Z.of_nat (List.length pre)) 0); [lia|].
  replace ((0 <=? Z.of_nat (List.length pre))%Z
           && (Z.of_nat (List.length pre)
               <? Z.of_nat (List.length pre + S (List.length post)))%Z)
    with true
    by (symmetry; apply andb_true_iff; split;
        [apply Z.leb_le | apply Z.ltb_lt]; lia).
  rewrite Nat2Z.id, set_nth_middle. reflexivity.
Qed.

Lemma getitem_same_length {A : Type} (l l' : list A) (i : Z) :
  List.length l = List.length l' ->
  (exists a a', getitem l i = Ok a /\ getitem l' i = Ok a')
  \/ (getitem l i = Raise IndexError /\ getitem l' i = Raise IndexError).
Proof.
  intros Hlen. unfold getitem, len. rewrite <- Hlen.
  set (k := if (i <? 0)%Z then (i + Z.of_nat (List.length l))%Z else i).
  destruct ((0 <=? k)%Z && (k <? Z.of_nat (List.length l))%Z) eqn:Hk.
  - apply andb_true_iff in Hk. destruct Hk as [H0 H1].
    apply Z.leb_le in H0. apply Z.ltb_lt in H1.
    destruct (nth_error l (Z.to_nat k)) eqn:E;
      [|apply nth_error_None in E; lia].
    destruct (nth_error l' (Z.to_nat k)) eqn:E';
      [|apply nth_error_None in E'; lia].
    left. eexists _, _. split; reflexivity.
  - right. split; reflexivity.
Qed.

Lemma set_nth_length {A : Type} (l : list A) (n : nat) (v : A) :
  List.length (set_nth l n v) = List.length l.
Proof.
  revert n. induction l as [|h l IH]; intros [|n]; simpl; try reflexivity.
  rewrite IH. reflexivity.
Qed.

Lemma setitem_length {A : Type} (l l' : list A) (i : Z) (v : A) :
  setitem l i v = Ok l' -> List.length l' = List.length l.
Proof.
  unfold setitem.
  destruct (_ && _)%bool; [|discriminate].
  intros H. injection H as <-. apply set_nth_length.
Qed.

(** What every pass keeps, the loop keeps. *)
Lemma for_each_invariant {S : Type} (P : S -> Prop) (idx : list Z)
  (body : Z -> S -> result S) :
  (forall i s s', P s -> body i s = Ok s' -> P s') ->
  forall s s', P s -> for_each idx body s = Ok s' -> P s'.
Proof.
  intros Hbody. induction idx as [|i idx IH]; intros s s' Hs H; simpl in H.
  - injection H as <-. exact Hs.
  - destruct (body i s) as [s1|e] eqn:E; [|discriminate].
    apply (IH s1 s'); [apply (Hbody i s s1 Hs E) | exact H].
Qed.

(** A loop whose passes all succeed is a left fold. *)
Lemma for_each_fold {S : Type} (idx : list nat)
  (body : Z -> S -> result S) (step : S -> nat -> S) :
  (forall i s, In i idx -> body (Z.of_nat i) s = Ok (step s i)) ->
  forall s, for_each (map Z.of_nat idx) body s = Ok (fold_left step idx s).
Proof.
  induction idx as [|i idx IH]; intros Hbody s; simpl.
  - reflexivity.
  - rewrite Hbody by (left; reflexivity).
    apply IH. intros k s' Hk. apply Hbody. right. exact Hk.
Qed.

Lemma for_each_ext {S : Type} (idx : list Z)
  (body1 body2 : Z -> S -> result S) :
  (forall i s, body1 i s = body2 i s) ->
  forall s, for_each idx body1 s = for_each idx body2 s.
Proof.
  intros Hext. induction idx as [|i idx IH]; intros s; simpl.
  - reflexivity.
  - rewrite Hext. destruct (body2 i s); [apply IH | reflexivity].
Qed.

Lemma fold_left_flat_map {A B C : Type} (f : A -> B -> A) (g : C -> list B)
  (l : list C) (a : A) :
  fold_left f (flat_map g l) a
  = fold_left (fun acc c => fold_left f (g c) acc) l a.
Proof.
  revert a. induction l as [|c l IH]; intros a; simpl.
  - reflexivity.
  - rewrite fold_left_app. apply IH.
Qed.

Lemma fold_left_map {A B C : Type} (f : A -> B -> A) (g : C -> B)
  (l : list C) (a : A) :
  fold_left f (map g l) a = fold_left (fun acc c => f acc (g c)) l a.
Proof.
  revert a. induction l as [|c l IH]; intros a; simpl; [reflexivity|apply IH].
Qed.

(** ** The single-face integrator *)

Section FaceAreaFacts.

Context {F : Type} {FO : Float64 F} {TR : Trig F}.
Variable get_gauss_quadratureDG : Z -> result (tables F).
Variable get_tri_quadratureDG : Z -> result (tables F).

Local Open Scope num_scope.

Lemma gaussian_loop (dG : list (list F)) (dW : list F) (n1 n2 n3 : vec3 F)
  (p : nat) (area : F) :
  gaussian_shape dG dW -> (p < List.length dW)%nat ->
  for_each (range (len dW))
    (fun q a => gaussian_step dG dW n1 n2 n3 (Z.of_nat p) q a) area
  = Ok (fold_left fadd
          (map (fun q =>
                  nth p dW f0 * nth q dW f0
                  * calculate_spherical_triangle_jacobian n1 n2 n3
                      (nth p (nth 0 dG []) f0) (nth q (nth 0 dG []) f0))
               (seq 0 (List.length dW)))
          area).
Proof.
  intros [Hrow Hcols] Hp.
  rewrite len_of_nat, range_of_nat, fold_left_map.
  apply for_each_fold. intros q a Hq. apply in_seq in Hq.
  unfold gaussian_step.
  rewrite (getitem_at dG 0%Z 0 []) by lia. cbn [bind].
  rewrite (getitem_at (nth 0 dG []) _ p f0) by lia. cbn [bind].
  rewrite (getitem_at (nth 0 dG []) _ q f0) by lia. cbn [bind].
  rewrite (getitem_at dW _ p f0) by lia. cbn [bind].
  rewrite (getitem_at dW _ q f0) by lia. cbn [bind].
  reflexivity.
Qed.

Lemma triangular_pass (dG : list (list F)) (dW : list F) (n1 n2 n3 : vec3 F)
  (p : nat) (area : F) :
  triangular_shape dG dW -> (p < List.length dW)%nat ->
  triangular_step dG dW n1 n2 n3 (Z.of_nat p) area
  = Ok (area + nth p dW f0
               * calculate_spherical_triangle_jacobian_barycentric n1 n2 n3
                   (nth 0 (nth p dG []) f0) (nth 1 (nth p dG []) f0)).
Proof.
  intros [Hrows Hcols] Hp. specialize (Hcols p Hp).
  unfold triangular_step.
  rewrite (getitem_at dG _ p []) by lia. cbn [bind].
  rewrite (getitem_at (nth p dG []) 0%Z 0 f0) by lia. cbn [bind].
  rewrite (getitem_at (nth p dG []) 1%Z 1 f0) by lia. cbn [bind].
  rewrite (getitem_at dW _ p f0) by lia. cbn [bind].
  reflexivity.
Qed.

Lemma quadrature_loop (quadrature_rule : string) (dG : list (list F))
  (dW : list F) (n1 n2 n3 : vec3 F) (area : F) :
  rule_ready quadrature_rule dG dW ->
  for_each (range (len dW))
    (fun p a => quadrature_step quadrature_rule dG dW n1 n2 n3 p a) area
  = Ok (fold_left fadd (rule_terms quadrature_rule dG dW (n1, n2, n3)) area).
Proof.
  intros [[-> Hshape] | [-> Hshape]].
  - unfold rule_terms, gaussian_terms. cbn [String.eqb Ascii.eqb Bool.eqb].
    rewrite fold_left_flat_map, len_of_nat, range_of_nat.
    apply for_each_fold. intros p a Hp. apply in_seq in Hp.
    unfold quadrature_step. cbn [String.eqb Ascii.eqb Bool.eqb].
    apply gaussian_loop; [exact Hshape | lia].
  - unfold rule_terms, triangular_terms. cbn [String.eqb Ascii.eqb Bool.eqb].
    rewrite fold_left_map, len_of_nat, range_of_nat.
    apply for_each_fold. intros p a Hp. apply in_seq in Hp.
    unfold quadrature_step. cbn [String.eqb Ascii.eqb Bool.eqb].
    apply triangular_pass; [exact Hshape | lia].
Qed.

Lemma triangle_pass (x y z : list F) (quadrature_rule : string)
  (dG : list (list F)) (dW : list F) (coords_type : string) (j : nat)
  (area : F) :
  List.length y = List.length x -> List.length z = List.length x ->
  (j + 2 < List.length x)%nat ->
  rule_ready quadrature_rule dG dW ->
  triangle_step x y z quadrature_rule dG dW coords_type (Z.of_nat j) area
  = Ok (fold_left fadd
          (rule_terms quadrature_rule dG dW
             (prepare coords_type
                (face_node x y z 0, face_node x y z (j + 1),
                 face_node x y z (j + 2))))
          area).
Proof.
  intros Hy Hz Hj Hready. unfold triangle_step.
  rewrite (getitem_at x 0%Z 0 f0), (getitem_at y 0%Z 0 f0),
    (getitem_at z 0%Z 0 f0) by lia. cbn [bind].
  rewrite (getitem_at x _ (j + 1) f0), (getitem_at y _ (j + 1) f0),
    (getitem_at z _ (j + 1) f0) by lia. cbn [bind].
  rewrite (getitem_at x _ (j + 2) f0), (getitem_at y _ (j + 2) f0),
    (getitem_at z _ (j + 2) f0) by lia. cbn [bind].
  unfold prepare, face_node.
  destruct (coords_type =? "spherical")%string;
    apply quadrature_loop; exact Hready.
Qed.

Lemma face_area_tables (x y z : list F) (quadrature_rule : string)
  (order : Z) (coords_type : string) (dG : list (list F)) (dW : list F) :
  quadrature_rule = "gaussian"%string
  \/ quadrature_rule = "triangular"%string ->
  provided get_gauss_quadratureDG get_tri_quadratureDG
    quadrature_rule order dG dW ->
  calculate_face_area get_gauss_quadratureDG get_tri_quadratureDG
    x y z quadrature_rule order coords_type
  = for_each (range (len x - 2))
      (triangle_step x y z quadrature_rule dG dW coords_type) f0.
Proof.
  intros Hrule [Hg Ht]. unfold calculate_face_area.
  destruct Hrule as [-> | ->]; cbn [String.eqb Ascii.eqb Bool.eqb].
  - rewrite Hg by reflexivity. reflexivity.
  - rewrite Ht by reflexivity. reflexivity.
Qed.

Lemma rule_ready_valid (quadrature_rule : string) (dG : list (list F))
  (dW : list F) :
  rule_ready quadrature_rule dG dW ->
  quadrature_rule = "gaussian"%string
  \/ quadrature_rule = "triangular"%string.
Proof. intros [[H _] | [H _]]; [left | right]; exact H. Qed.

Lemma face_area_ok (x y z : list F) (quadrature_rule : string)
  (order : Z) (coords_type : string) (dG : list (list F)) (dW : list F) :
  List.length y = List.length x -> List.length z = List.length x ->
  provided get_gauss_quadratureDG get_tri_quadratureDG
    quadrature_rule order dG dW ->
  rule_ready quadrature_rule dG dW ->
  calculate_face_area get_gauss_quadratureDG get_tri_quadratureDG
    x y z quadrature_rule order coords_type
  = Ok (fan_quadrature_sum x y z quadrature_rule dG dW coords_type).
Proof.
  intros Hy Hz Hprov Hready.
  rewrite (face_area_tables x y z quadrature_rule order coords_type dG dW
             (rule_ready_valid quadrature_rule dG dW Hready) Hprov).
  unfold fan_quadrature_sum, fan_triangles, running_sum.
  rewrite fold_left_flat_map, fold_left_map.
  unfold range, len.
  replace (Z.to_nat (Z.of_nat (List.length x) - 2))
    with (List.length x - 2)%nat by lia.
  apply for_each_fold.
  intros j a Hj. apply in_seq in Hj.
  apply triangle_pass; [exact Hy | exact Hz | lia | exact Hready].
Qed.


(** C4 (amended). A face with fewer than three nodes is not refused: with a
    valid rule whose table the provider returns, the loop over triangles has
    no pass and [calculate_face_area] returns the area 0.0. *)
Theorem calculate_face_area_small_face (x y z : list F)
  (quadrature_rule : string) (order : Z) (coords_type : string)
  (dG : list (list F)) (dW : list F) :
  (List.length x < 3)%nat ->
  quadrature_rule = "gaussian"%string
  \/ quadrature_rule = "triangular"%string ->
  provided get_gauss_quadratureDG get_tri_quadratureDG
    quadrature_rule order dG dW ->
  calculate_face_area get_gauss_quadratureDG get_tri_quadratureDG
    x y z quadrature_rule order coords_type = Ok f0.
Proof.
  intros Hn Hrule Hprov.
  rewrite (face_area_tables x y z quadrature_rule order coords_type dG dW
             Hrule Hprov).
  unfold range, len.
  replace (Z.to_nat (Z.of_nat (List.length x) - 2)) with 0%nat by lia.
  reflexivity.
Qed.

Lemma face_area_invalid_rule (x y z : list F) (quadrature_rule : string)
  (order : Z) (coords_type : string) :
  quadrature_rule <> "gaussian"%string ->
  quadrature_rule <> "triangular"%string ->
  calculate_face_area get_gauss_quadratureDG get_tri_quadratureDG
    x y z quadrature_rule order coords_type = Raise invalid_rule_error.
Proof.
  intros Hg Ht. unfold calculate_face_area.
  apply String.eqb_neq in Hg, Ht. rewrite Hg, Ht. reflexivity.
Qed.


(** *** Spherical coordinates and the z array *)

Lemma triangle_step_spherical_ignores_z (x y z z' : list F)
  (quadrature_rule : string) (dG : list (list F)) (dW : list F) (j : Z)
  (area : F) :
  List.length z = List.length z' ->
  triangle_step x y z quadrature_rule dG dW "spherical" j area
  = triangle_step x y z' quadrature_rule dG dW "spherical" j area.
Proof.
  intros Hlen. unfold triangle_step.
  cbn [String.eqb Ascii.eqb Bool.eqb].
  unfold _spherical_to_cartesian_unit_. cbn [c0 c1].
  destruct (getitem x 0) as [x0|]; cbn [bind]; [|reflexivity].
  destruct (getitem y 0) as [y0|]; cbn [bind]; [|reflexivity].
  destruct (getitem_same_length z z' 0 Hlen)
    as [(a & a' & -> & ->) | [-> ->]]; cbn [bind]; [|reflexivity].
  destruct (getitem x (j + 1)) as [x1|]; cbn [bind]; [|reflexivity].
  destruct (getitem y (j + 1)) as [y1|]; cbn [bind]; [|reflexivity].
  destruct (getitem_same_length z z' (j + 1) Hlen)
    as [(b & b' & -> & ->) | [-> ->]]; cbn [bind]; [|reflexivity].
  destruct (getitem x (j + 2)) as [x2|]; cbn [bind]; [|reflexivity].
  destruct (getitem y (j + 2)) as [y2|]; cbn [bind]; [|reflexivity].
  destruct (getitem_same_length z z' (j + 2) Hlen)
    as [(c & c' & -> & ->) | [-> ->]]; cbn [bind]; reflexivity.
Qed.

(** X2. With spherical coordinates the integrator uses the z array only
    for subscripting: the projector reads longitude and latitude alone, so
    two z arrays of one length give the same result. *)
Theorem calculate_face_area_spherical_ignores_z (x y z z' : list F)
  (quadrature_rule : string) (order : Z) :
  List.length z = List.length z' ->
  calculate_face_area get_gauss_quadratureDG get_tri_quadratureDG
    x y z quadrature_rule order "spherical"
  = calculate_face_area get_gauss_quadratureDG get_tri_quadratureDG
      x y z' quadrature_rule order "spherical".
Proof.
  intros Hlen. unfold calculate_face_area.
  match goal with |- bind ?c _ = _ => destruct c as [[dG dW]|e] end;
    cbn [bind]; [|reflexivity].
  apply for_each_ext. intros j area.
  apply triangle_step_spherical_ignores_z. exact Hlen.
Qed.

End FaceAreaFacts.

(** *** Concrete faces, in exact arithmetic with the sample tables *)

Section FaceAreaRuns.

Local Open Scope R_scope.
Local Open Scope string_scope.

Lemma sample_tri_provided :
  provided (F:=R) sample_gauss sample_tri "triangular" 1
    [[1 / 3; 1 / 3; 1 / 3]] [1].
Proof. split; [discriminate | reflexivity]. Defined.

Lemma sample_tri_ready :
  rule_ready (F:=R) "triangular" [[1 / 3; 1 / 3; 1 / 3]] [1].
Proof.
  right. split; [reflexivity|]. split; [simpl; lia|].
  intros [|p] Hp; simpl in *; lia.
Defined.

Lemma sample_gauss_supported :
  supported (F:=R) sample_gauss sample_tri "gaussian" 1.
Proof.
  intros _. exists [[/ 2]], [1]. split.
  - split; [reflexivity | discriminate].
  - left. split; [reflexivity|]. split; simpl; lia.
Defined.


(** A face of two nodes. *)
Lemma calculate_face_area_small_face_witness :
  (List.length [10; 20] < 3)%nat
  /\ calculate_face_area sample_gauss sample_tri
      [10; 20] [0; 5] [0; 0] "triangular" 1%Z "spherical" = Ok 0.
Proof.
  assert (Hn : (List.length [10; 20] < 3)%nat) by (simpl; lia).
  split; [exact Hn|].
  exact (calculate_face_area_small_face sample_gauss sample_tri
           [10; 20] [0; 5] [0; 0] "triangular" 1%Z "spherical"
           [[1 / 3; 1 / 3; 1 / 3]] [1] Hn (or_intror eq_refl)
           sample_tri_provided).
Defined.

(** C4, as stated, fails: a face of two nodes is given the area 0.0, and so
    is a face of no node; nothing is raised. *)
Lemma two_node_face_returns_zero :
  calculate_face_area sample_gauss sample_tri
      [10; 20] [0; 5] [0; 0] "triangular" 1%Z "spherical" = Ok 0
  /\ calculate_face_area sample_gauss sample_tri
      [10; 20] [0; 5] [0; 0] "gaussian" 1%Z "cartesian" = Ok 0
  /\ calculate_face_area sample_gauss sample_tri
      [] [] [] "triangular" 1%Z "spherical" = Ok 0.
Proof. split; [reflexivity | split; reflexivity]. Qed.


Lemma calculate_face_area_spherical_ignores_z_witness :
  List.length [0; 0; 0] = List.length [5; 6; 7]
  /\ calculate_face_area sample_gauss sample_tri
       [0; 90; 0] [0; 0; 90] [0; 0; 0] "triangular" 1%Z "spherical"
     = calculate_face_area sample_gauss sample_tri
         [0; 90; 0] [0; 0; 90] [5; 6; 7] "triangular" 1%Z "spherical".
Proof.
  split; [reflexivity|].
  exact (calculate_face_area_spherical_ignores_z sample_gauss sample_tri
           [0; 90; 0] [0; 0; 90] [0; 0; 0] [5; 6; 7]
           "triangular" 1%Z eq_refl).
Defined.

End FaceAreaRuns.

(** ** The mesh-wide driver *)

Section DriverFacts.

Context {F : Type} {FO : Float64 F} {TR : Trig F}.
Variable get_gauss_quadratureDG : Z -> result (tables F).
Variable get_tri_quadratureDG : Z -> result (tables F).

Lemma gather_step_ignores_z (x y z z' : list F) (face : list Z) (dim : Z)
  (j : Z) (st : list F * list F * list F) :
  (dim <= 2)%Z ->
  gather_step x y z face dim j st = gather_step x y z' face dim j st.
Proof.
  intros Hdim. unfold gather_step.
  replace (dim >? 2)%Z with false
    by (symmetry; rewrite Z.gtb_ltb; apply Z.ltb_ge; lia).
  reflexivity.
Qed.

(** C9. With a topological dimension of at most 2 the driver never reads the
    z array ([face_z] stays all zero): two runs on inputs that differ only in
    z give the same result, be it the array of areas or an exception. *)
Theorem get_all_face_area_from_coords_ignores_z (x y z z' : list F)
  (face_nodes : list (list Z)) (dim : Z) (quadrature_rule : string)
  (order : Z) (coords_type : string) :
  (dim <= 2)%Z ->
  get_all_face_area_from_coords get_gauss_quadratureDG get_tri_quadratureDG
    x y z face_nodes dim quadrature_rule order coords_type
  = get_all_face_area_from_coords get_gauss_quadratureDG get_tri_quadratureDG
    x y z' face_nodes dim quadrature_rule order coords_type.
Proof.
  intros Hdim. unfold get_all_face_area_from_coords.
  apply for_each_ext. intros i area. unfold face_step.
  destruct (getitem face_nodes i) as [face|e]; [cbn [bind] | reflexivity].
  rewrite (for_each_ext _ _ _ (fun j st =>
             gather_step_ignores_z x y z z' face dim j st Hdim)).
  reflexivity.
Qed.

(** *** What the driver reads *)

Lemma gather_pass (x y z : list F) (dim : Z) (done todo : list Z) (id : Z) :
  len y = len x -> len z = len x -> subscript_ok (len x) id ->
  gather_step x y z (done ++ id :: todo) dim (Z.of_nat (List.length done))
    (gathered x y z dim done (id :: todo))
  = Ok (gathered x y z dim (done ++ [id]) todo).
Proof.
  intros Hy Hz Hid. unfold gather_step, gathered. cbn [List.length repeat].
  rewrite (getitem_nth (done ++ id :: todo) (List.length done) 0%Z)
    by (rewrite length_app; simpl; lia).
  rewrite nth_middle. cbn [bind].
  rewrite (getitem_wrap x id f0 Hid). cbn [bind].
  replace (List.length done) with (List.length (map (item x f0) done)) at 1
    by apply length_map.
  rewrite setitem_middle. cbn [bind].
  rewrite (getitem_wrap y id f0) by (rewrite Hy; exact Hid). cbn [bind].
  replace (List.length done) with (List.length (map (item y f0) done)) at 1
    by apply length_map.
  rewrite setitem_middle. cbn [bind].
  rewrite !map_app, <- !app_assoc. cbn [map app].
  destruct (dim >? 2)%Z.
  - rewrite (getitem_wrap z id f0) by (rewrite Hz; exact Hid). cbn [bind].
    replace (List.length done) with (List.length (map (item z f0) done)) at 1
      by apply length_map.
    rewrite setitem_middle. cbn [bind].
    rewrite <- app_assoc. reflexivity.
  - rewrite length_app. cbn [List.length].
    rewrite repeat_app, <- app_assoc. reflexivity.
Qed.

Lemma gather_loop (x y z : list F) (dim : Z) (todo done : list Z) :
  len y = len x -> len z = len x ->
  Forall (subscript_ok (len x)) todo ->
  for_each (map Z.of_nat (seq (List.length done) (List.length todo)))
    (gather_step x y z (done ++ todo) dim) (gathered x y z dim done todo)
  = Ok (gathered x y z dim (done ++ todo) []).
Proof.
  intros Hy Hz. revert done.
  induction todo as [|id todo IH]; intros done Hok.
  - rewrite app_nil_r. reflexivity.
  - inversion Hok as [|? ? Hid Hrest]; subst.
    cbn [List.length seq map for_each].
    rewrite (gather_pass x y z dim done todo id Hy Hz Hid).
    specialize (IH (done ++ [id]) Hrest).
    rewrite length_app in IH. cbn [List.length] in IH.
    rewrite Nat.add_1_r, <- app_assoc in IH. cbn [app] in IH.
    exact IH.
Qed.

Lemma gather_row (x y z : list F) (dim : Z) (face : list Z) :
  len y = len x -> len z = len x ->
  Forall (subscript_ok (len x)) face ->
  for_each (range (len face)) (gather_step x y z face dim)
    (np_zeros (len face), np_zeros (len face), np_zeros (len face))
  = Ok (map (item x f0) face, map (item y f0) face,
        if (dim >? 2)%Z then map (item z f0) face
        else repeat f0 (List.length face)).
Proof.
  intros Hy Hz Hok.
  pose proof (gather_loop x y z dim face [] Hy Hz Hok) as H.
  unfold gathered in H. cbn [List.length app map repeat] in H.
  rewrite !app_nil_r in H.
  unfold range, np_zeros, len. rewrite Nat2Z.id.
  destruct (dim >? 2)%Z; exact H.
Qed.

Lemma face_step_reads_every_entry (x y z : list F)
  (face_nodes : list (list Z)) (dim : Z) (quadrature_rule : string)
  (order : Z) (coords_type : string) (i : nat) (area : list F) :
  len y = len x -> len z = len x ->
  (i < List.length face_nodes)%nat ->
  Forall (subscript_ok (len x)) (nth i face_nodes []) ->
  face_step get_gauss_quadratureDG get_tri_quadratureDG x y z face_nodes dim
    quadrature_rule order coords_type (Z.of_nat i) area
  = bind (row_area get_gauss_quadratureDG get_tri_quadratureDG x y z dim
            quadrature_rule order coords_type
            (nth i face_nodes []))
      (setitem area (Z.of_nat i)).
Proof.
  intros Hy Hz Hi Hok. unfold face_step.
  rewrite (getitem_nth face_nodes i []) by exact Hi. cbn [bind].
  rewrite (gather_row x y z dim (nth i face_nodes []) Hy Hz Hok). cbn [bind].
  reflexivity.
Qed.

Lemma face_loop (x y z : list F) (dim : Z) (quadrature_rule : string)
  (order : Z) (coords_type : string) (todo done : list (list Z))
  (areas : list F) :
  len y = len x -> len z = len x ->
  Forall (Forall (subscript_ok (len x))) todo ->
  List.length areas = List.length done ->
  for_each (map Z.of_nat (seq (List.length done) (List.length todo)))
    (face_step get_gauss_quadratureDG get_tri_quadratureDG x y z
       (done ++ todo) dim quadrature_rule order coords_type)
    (areas ++ repeat f0 (List.length todo))
  = bind (map_result
            (row_area get_gauss_quadratureDG get_tri_quadratureDG x y z dim
               quadrature_rule order coords_type)
            todo)
      (fun rest => Ok (areas ++ rest)).
Proof.
  intros Hy Hz. revert done areas.
  induction todo as [|face todo IH]; intros done areas Hok Hlen.
  - cbn. reflexivity.
  - inversion Hok as [|? ? Hface Hrest]; subst.
    cbn [List.length seq map for_each map_result repeat].
    rewrite (face_step_reads_every_entry x y z (done ++ face :: todo) dim
               quadrature_rule order coords_type (List.length done)
               (areas ++ f0 :: repeat f0 (List.length todo)) Hy Hz)
      by (rewrite ?length_app, ?nth_middle; simpl; try lia; exact Hface).
    rewrite nth_middle.
    destruct (row_area get_gauss_quadratureDG get_tri_quadratureDG x y z dim
                quadrature_rule order coords_type face)
      as [a|e]; cbn [bind]; [|reflexivity].
    replace (Z.of_nat (List.length done)) with (Z.of_nat (List.length areas))
      by (rewrite Hlen; reflexivity).
    rewrite setitem_middle. cbn [bind].
    specialize (IH (done ++ [face]) (areas ++ [a]) Hrest).
    rewrite <- !app_assoc in IH. cbn [app] in IH.
    replace (List.length (done ++ [face])) with (S (List.length done)) in IH
      by (rewrite length_app; simpl; lia).
    rewrite IH by (rewrite !length_app; simpl; lia).
    destruct (map_result
                (row_area get_gauss_quadratureDG get_tri_quadratureDG x y z
                   dim quadrature_rule order coords_type)
                todo) as [rest|e]; cbn [bind]; [|reflexivity].
    rewrite <- app_assoc. reflexivity.
Qed.

(** X1. When every entry of [face_nodes] is a valid subscript of the node
    arrays, the driver returns, row by row, what the integrator gives for the
    coordinates at every entry of the row, trailing ones included; the z
    coordinates are all 0.0 unless the dimension exceeds 2. *)
Theorem get_all_face_area_from_coords_reads_every_entry (x y z : list F)
  (face_nodes : list (list Z)) (dim : Z) (quadrature_rule : string)
  (order : Z) (coords_type : string) :
  len y = len x -> len z = len x ->
  Forall (Forall (subscript_ok (len x))) face_nodes ->
  get_all_face_area_from_coords get_gauss_quadratureDG get_tri_quadratureDG
    x y z face_nodes dim quadrature_rule order coords_type
  = map_result
      (row_area get_gauss_quadratureDG get_tri_quadratureDG x y z dim
         quadrature_rule order coords_type)
      face_nodes.
Proof.
  intros Hy Hz Hok. unfold get_all_face_area_from_coords.
  pose proof (face_loop x y z dim quadrature_rule order coords_type
                face_nodes [] [] Hy Hz Hok eq_refl) as H.
  cbn [List.length app] in H.
  unfold range, np_zeros, len. rewrite Nat2Z.id, H.
  destruct (map_result
              (row_area get_gauss_quadratureDG get_tri_quadratureDG x y z dim
                 quadrature_rule order coords_type)
              face_nodes); reflexivity.
Qed.

(** *** The shape of the result *)

Lemma face_step_keeps_length (x y z : list F) (face_nodes : list (list Z))
  (dim : Z) (quadrature_rule : string) (order : Z) (coords_type : string)
  (i : Z) (area area' : list F) :
  face_step get_gauss_quadratureDG get_tri_quadratureDG x y z face_nodes dim
    quadrature_rule order coords_type i area = Ok area' ->
  List.length area' = List.length area.
Proof.
  unfold face_step. intros H.
  destruct (getitem face_nodes i) as [face|]; cbn [bind] in H; [|discriminate].
  match type of H with bind ?c _ = _ => destruct c as [[[fx fy] fz]|] end;
    cbn [bind] in H; [|discriminate].
  match type of H with bind ?c _ = _ => destruct c as [a|] end;
    cbn [bind] in H; [|discriminate].
  apply setitem_length in H. exact H.
Qed.

(** X3. When the driver returns, its array has one area per row of
    [face_nodes]. *)
Theorem get_all_face_area_from_coords_one_area_per_face (x y z : list F)
  (face_nodes : list (list Z)) (dim : Z) (quadrature_rule : string)
  (order : Z) (coords_type : string) (areas : list F) :
  get_all_face_area_from_coords get_gauss_quadratureDG get_tri_quadratureDG
    x y z face_nodes dim quadrature_rule order coords_type = Ok areas ->
  List.length areas = List.length face_nodes.
Proof.
  unfold get_all_face_area_from_coords. intros H.
  apply (for_each_invariant
           (fun a : list F => List.length a = List.length face_nodes)) in H.
  - exact H.
  - intros i s s' Hs Hstep. apply face_step_keeps_length in Hstep.
    rewrite Hstep. exact Hs.
  - unfold np_zeros, len. rewrite Nat2Z.id. apply repeat_length.
Qed.

End DriverFacts.

Lemma get_all_face_area_from_coords_ignores_z_witness :
  (2 <= 2)%Z
  /\ get_all_face_area_from_coords (F:=R) sample_gauss sample_tri
       [0; 90; 0]%R [0; 0; 90]%R [0; 0; 0]%R [[0; 1; 2]]%Z 2 "gaussian" 1
       "spherical"
     = get_all_face_area_from_coords (F:=R) sample_gauss sample_tri
         [0; 90; 0]%R [0; 0; 90]%R [5; 6; 7]%R [[0; 1; 2]]%Z 2 "gaussian" 1
         "spherical".
Proof.
  assert (Hdim : (2 <= 2)%Z) by lia.
  split; [exact Hdim|].
  exact (get_all_face_area_from_coords_ignores_z sample_gauss sample_tri
           [0; 90; 0]%R [0; 0; 90]%R [0; 0; 0]%R [5; 6; 7]%R [[0; 1; 2]]%Z 2
           "gaussian" 1 "spherical" Hdim).
Defined.

(** A row of four entries whose last is -1: the face handed on has four
    nodes, the fourth being the last node of the mesh. *)
Lemma get_all_face_area_from_coords_reads_every_entry_witness :
  Forall (Forall (subscript_ok 4)) [[0; 1; 2; -1]]%Z
  /\ get_all_face_area_from_coords (F:=R) sample_gauss sample_tri
       [1; 0; 0; 0]%R [0; 1; 0; -1]%R [0; 0; 1; 0]%R [[0; 1; 2; -1]]%Z 3
       "triangular" 1 "cartesian"
     = map_result
         (row_area sample_gauss sample_tri
            [1; 0; 0; 0]%R [0; 1; 0; -1]%R [0; 0; 1; 0]%R 3
            "triangular" 1 "cartesian")
         [[0; 1; 2; -1]]%Z.
Proof.
  assert (Hok : Forall (Forall (subscript_ok 4)) [[0; 1; 2; -1]]%Z)
    by (repeat constructor; unfold subscript_ok; lia).
  split; [exact Hok|].
  exact (get_all_face_area_from_coords_reads_every_entry
           sample_gauss sample_tri
           [1; 0; 0; 0]%R [0; 1; 0; -1]%R [0; 0; 1; 0]%R [[0; 1; 2; -1]]%Z 3
           "triangular" 1 "cartesian" eq_refl eq_refl Hok).
Defined.

(** Two faces of two nodes each: two areas. *)
Lemma get_all_face_area_from_coords_one_area_per_face_witness :
  get_all_face_area_from_coords (F:=R) sample_gauss sample_tri
    [10; 20]%R [0; 5]%R [0; 0]%R [[0; 1]; [1; 0]]%Z 2 "triangular" 1
    "spherical" = Ok [0; 0]%R
  /\ List.length [0; 0]%R = List.length [[0; 1]; [1; 0]]%Z.
Proof.
  assert (H : get_all_face_area_from_coords (F:=R) sample_gauss sample_tri
    [10; 20]%R [0; 5]%R [0; 0]%R [[0; 1]; [1; 0]]%Z 2 "triangular" 1
    "spherical" = Ok [0; 0]%R) by reflexivity.
  split; [exact H|].
  exact (get_all_face_area_from_coords_one_area_per_face
           sample_gauss sample_tri _ _ _ _ _ _ _ _ _ H).
Defined.

Section DriverRuns.

Context {TR : Trig PrimFloat.float}.

Local Open Scope string_scope.


End DriverRuns.

(** ** The face-area methods of [Grid] *)

Section FacadeFacts.

Context {F : Type} {FO : Float64 F}.
Variable area_driver :
  list F -> list F -> list F -> list (list Z) -> list Z -> Z ->
  string -> Z -> string -> result (list F).
Variable np_sum : list F -> F.

Lemma compute_face_areas_ignores_cache (g : Grid F) (cache : option (list F))
  (quadrature_rule : string) (order : Z) :
  compute_face_areas area_driver (set_face_areas g cache) quadrature_rule order
  = compute_face_areas area_driver g quadrature_rule order.
Proof. destruct g. reflexivity. Qed.

Lemma compute_face_areas_calls_driver (g g' : Grid F)
  (quadrature_rule : string) (order : Z) (areas : list F) :
  compute_face_areas area_driver g quadrature_rule order = Ok (areas, g') ->
  g' = set_face_areas g (Some areas)
  /\ exists x y z dim coords_type,
       area_driver x y z (Mesh2_face_nodes g) (nNodes_per_face g) dim
         quadrature_rule order coords_type = Ok areas.
Proof.
  unfold compute_face_areas. intros H.
  destruct (getattr "units" (Mesh2_node_x_units g)) as [units|];
    cbn [bind] in H; [|discriminate].
  destruct (getattr "Mesh2" (Mesh2 g)) as [dim|]; cbn [bind] in H;
    [|discriminate].
  match type of H with bind ?c _ = _ => destruct c as [z|] end;
    cbn [bind] in H; [|discriminate].
  destruct (as_float_array (Mesh2_node_x g)) as [x|]; cbn [bind] in H;
    [|discriminate].
  destruct (as_float_array (Mesh2_node_y g)) as [y|]; cbn [bind] in H;
    [|discriminate].
  destruct (as_float_array z) as [z1|]; cbn [bind] in H; [|discriminate].
  match type of H with bind ?c _ = _ => destruct c as [a|] eqn:Hd end;
    cbn [bind] in H; [|discriminate].
  injection H as <- <-. split; [reflexivity|].
  eexists _, _, _, _, _. exact Hd.
Qed.


End FacadeFacts.

(** ** The Jacobian evaluators *)

Section JacobianFacts.

Context {F : Type} {FO : Float64 F}.

(** C7. The barycentric evaluator takes the surface point
    [a*p1 + b*p2 + (1-a-b)*p3] with the constant partials [p1 - p3] and
    [p2 - p3], runs the procedure the tensor evaluator runs on its own point
    and partials, and returns half of the resulting cross-product norm. *)
Theorem barycentric_jacobian_is_half_cross_norm (p1 p2 p3 : vec3 F) (a b : F) :
  calculate_spherical_triangle_jacobian_barycentric p1 p2 p3 a b
  = fmul f_half
      (projected_cross_norm (barycentric_point p1 p2 p3 a b)
         (vsub p1 p3) (vsub p2 p3))
  /\ calculate_spherical_triangle_jacobian p1 p2 p3 a b
     = projected_cross_norm (tensor_point p1 p2 p3 a b)
         (tensor_da p1 p2 b) (tensor_db p1 p2 p3 a).
Proof.
  split.
  - unfold calculate_spherical_triangle_jacobian_barycentric,
      projected_cross_norm, barycentric_point, tangent_part, vsub,
      np_linalg_norm.
    cbn [c0 c1 c2]. reflexivity.
  - unfold calculate_spherical_triangle_jacobian, projected_cross_norm,
      tensor_point, tensor_da, tensor_db, tangent_part, np_linalg_norm.
    cbn [c0 c1 c2]. reflexivity.
Qed.

End JacobianFacts.


Section RealFacts.

Local Open Scope R_scope.

Lemma norm_R (v : vec3 R) :
  np_linalg_norm v = sqrt (c0 v * c0 v + c1 v * c1 v + c2 v * c2 v).
Proof. reflexivity. Qed.

Lemma norm_zero_iff_origin (v : vec3 R) :
  np_linalg_norm v = 0 <-> v = V3 0 0 0.
Proof.
  rewrite norm_R. destruct v as [a b c]. cbn [c0 c1 c2]. split.
  - intros H. apply sqrt_eq_0 in H; [|nra].
    assert (a = 0) by nra. assert (b = 0) by nra. assert (c = 0) by nra.
    subst. reflexivity.
  - intros H. injection H as -> -> ->.
    replace (0 * 0 + 0 * 0 + 0 * 0) with 0 by ring. apply sqrt_0.
Qed.


(** *** The coordinate projector *)

Lemma coord_norm (lam phi r : R) :
  np_linalg_norm (V3 (r * cos phi * cos lam) (r * cos phi * sin lam)
                     (r * sin phi))
  = Rabs r.
Proof.
  rewrite norm_R. cbn [c0 c1 c2].
  replace (r * cos phi * cos lam * (r * cos phi * cos lam)
           + r * cos phi * sin lam * (r * cos phi * sin lam)
           + r * sin phi * (r * sin phi))
    with (Rsqr r * (Rsqr (cos phi) * (Rsqr (sin lam) + Rsqr (cos lam))
                    + Rsqr (sin phi)))
    by (unfold Rsqr; ring).
  rewrite sin2_cos2, Rmult_1_r, (Rplus_comm (Rsqr (cos phi))), sin2_cos2,
    Rmult_1_r.
  apply sqrt_Rsqr_abs.
Qed.

Lemma projector_R (node : vec3 R) (r : R) :
  _spherical_to_cartesian_unit_ node r
  = let lam := radians (c0 node) in
    let phi := radians (c1 node) in
    V3 (r * cos phi * cos lam / Rabs r) (r * cos phi * sin lam / Rabs r)
       (r * sin phi / Rabs r).
Proof.
  unfold _spherical_to_cartesian_unit_, vdiv. cbn zeta.
  change (deg2rad (c1 node)) with (radians (c1 node)).
  change (deg2rad (c0 node)) with (radians (c0 node)).
  change (@fmul R Float64_R) with Rmult.
  change (@fcos R Trig_R) with cos. change (@fsin R Trig_R) with sin.
  rewrite coord_norm. reflexivity.
Qed.

Lemma projector_norm (node : vec3 R) (r : R) :
  r <> 0 -> np_linalg_norm (_spherical_to_cartesian_unit_ node r) = 1.
Proof.
  intros Hr. rewrite projector_R. cbn zeta.
  set (lam := radians (c0 node)). set (phi := radians (c1 node)).
  rewrite norm_R. cbn [c0 c1 c2].
  assert (Ha : Rabs r <> 0) by (apply Rabs_no_R0; exact Hr).
  replace (r * cos phi * cos lam / Rabs r * (r * cos phi * cos lam / Rabs r)
           + r * cos phi * sin lam / Rabs r * (r * cos phi * sin lam / Rabs r)
           + r * sin phi / Rabs r * (r * sin phi / Rabs r))
    with (Rsqr r / Rsqr (Rabs r)
          * (Rsqr (cos phi) * (Rsqr (sin lam) + Rsqr (cos lam))
             + Rsqr (sin phi)))
    by (unfold Rsqr; field; exact Ha).
  rewrite sin2_cos2, Rmult_1_r, (Rplus_comm (Rsqr (cos phi))), sin2_cos2,
    Rmult_1_r.
  rewrite <- Rsqr_abs.
  replace (Rsqr r / Rsqr r) with 1
    by (unfold Rsqr; field; exact Hr).
  apply sqrt_1.
Qed.


Lemma projector_positive_radius (node : vec3 R) (r : R) :
  0 < r ->
  _spherical_to_cartesian_unit_ node r
  = V3 (cos (radians (c1 node)) * cos (radians (c0 node)))
       (cos (radians (c1 node)) * sin (radians (c0 node)))
       (sin (radians (c1 node))).
Proof.
  intros Hr. rewrite projector_R. cbn zeta.
  rewrite (Rabs_pos_eq r) by lra.
  f_equal; field; lra.
Qed.



End RealFacts.

(** ** More on the integrator and the driver *)

Section MoreDriverFacts.

Context {F : Type} {FO : Float64 F} {TR : Trig F}.
Variable get_gauss_quadratureDG : Z -> result (tables F).
Variable get_tri_quadratureDG : Z -> result (tables F).

(** X8. The driver tests the quadrature rule only when it integrates a face:
    with no face it returns the empty array for any rule and order, and with
    at least one face whose entries are valid subscripts an unknown rule
    raises the [ValueError] of the integrator at the first face, whatever
    the other rows hold. *)
Theorem get_all_face_area_from_coords_checks_rule_per_face (x y z : list F)
  (dim : Z) (quadrature_rule : string) (order : Z) (coords_type : string) :
  get_all_face_area_from_coords get_gauss_quadratureDG get_tri_quadratureDG
    x y z [] dim quadrature_rule order coords_type = Ok []
  /\ (forall face rest,
        len y = len x -> len z = len x ->
        Forall (subscript_ok (len x)) face ->
        quadrature_rule <> "gaussian"%string ->
        quadrature_rule <> "triangular"%string ->
        get_all_face_area_from_coords get_gauss_quadratureDG
          get_tri_quadratureDG x y z (face :: rest) dim quadrature_rule order
          coords_type
        = Raise invalid_rule_error).
Proof.
  split; [reflexivity|].
  intros face rest Hy Hz Hok Hg Ht.
  unfold get_all_face_area_from_coords, range, len.
  rewrite Nat2Z.id. cbn [List.length seq map for_each].
  rewrite (face_step_reads_every_entry get_gauss_quadratureDG
             get_tri_quadratureDG x y z (face :: rest) dim quadrature_rule
             order coords_type 0 _ Hy Hz)
    by (simpl; try lia; exact Hok).
  cbn [nth]. unfold row_area.
  rewrite (face_area_invalid_rule get_gauss_quadratureDG
             get_tri_quadratureDG _ _ _ quadrature_rule order coords_type
             Hg Ht).
  reflexivity.
Qed.

Local Open Scope num_scope.

Lemma face_node_app (x y z : list F) (a b c : F) (i : nat) :
  List.length y = List.length x -> List.length z = List.length x ->
  (i < List.length x)%nat ->
  face_node (x ++ [a]) (y ++ [b]) (z ++ [c]) i = face_node x y z i.
Proof.
  intros Hy Hz Hi. unfold face_node.
  rewrite !app_nth1 by lia. reflexivity.
Qed.

Lemma face_node_last (x y z : list F) (a b c : F) :
  List.length y = List.length x -> List.length z = List.length x ->
  face_node (x ++ [a]) (y ++ [b]) (z ++ [c]) (List.length x) = V3 a b c.
Proof.
  intros Hy Hz. unfold face_node.
  rewrite (app_nth2 x), (app_nth2 y), (app_nth2 z) by lia.
  rewrite Hy, Hz, !Nat.sub_diag. reflexivity.
Qed.

Lemma fan_triangles_app (x y z : list F) (a b c : F) :
  List.length y = List.length x -> List.length z = List.length x ->
  (2 <= List.length x)%nat ->
  fan_triangles (x ++ [a]) (y ++ [b]) (z ++ [c])
  = fan_triangles x y z
    ++ [(face_node x y z 0, face_node x y z (List.length x - 1), V3 a b c)].
Proof.
  intros Hy Hz Hn. unfold fan_triangles.
  rewrite length_app. cbn [List.length].
  replace (List.length x + 1 - 2)%nat with (S (List.length x - 2)) by lia.
  rewrite seq_S, map_app. cbn [map Nat.add]. f_equal.
  - apply map_ext_in. intros j Hj. apply in_seq in Hj.
    rewrite !face_node_app by lia. reflexivity.
  - rewrite face_node_app by lia.
    replace (List.length x - 2 + 1)%nat with (List.length x - 1)%nat by lia.
    rewrite face_node_app by lia.
    replace (List.length x - 2 + 2)%nat with (List.length x) by lia.
    rewrite face_node_last by assumption. reflexivity.
Qed.

Lemma fan_quadrature_sum_app (x y z : list F) (a b c : F)
  (quadrature_rule : string) (dG : list (list F)) (dW : list F)
  (coords_type : string) :
  List.length y = List.length x -> List.length z = List.length x ->
  (2 <= List.length x)%nat ->
  fan_quadrature_sum (x ++ [a]) (y ++ [b]) (z ++ [c]) quadrature_rule dG dW
    coords_type
  = fold_left fadd
      (rule_terms quadrature_rule dG dW
         (prepare coords_type
            (face_node x y z 0, face_node x y z (List.length x - 1),
             V3 a b c)))
      (fan_quadrature_sum x y z quadrature_rule dG dW coords_type).
Proof.
  intros Hy Hz Hn. unfold fan_quadrature_sum, running_sum.
  rewrite fan_triangles_app by assumption.
  rewrite flat_map_app, fold_left_app. cbn [flat_map].
  rewrite app_nil_r. reflexivity.
Qed.


End MoreDriverFacts.


Section RealAreaFacts.

Variable get_gauss_quadratureDG : Z -> result (tables R).
Variable get_tri_quadratureDG : Z -> result (tables R).

Local Open Scope R_scope.

Lemma fold_left_Rplus (l : list R) (a : R) :
  fold_left Rplus l a = a + fold_left Rplus l 0.
Proof.
  revert a. induction l as [|t l IH]; intros a; simpl.
  - lra.
  - rewrite (IH (a + t)), (IH (0 + t)). lra.
Qed.

Lemma running_sum_nonneg (l : list R) :
  Forall (Rle 0) l -> 0 <= running_sum l.
Proof.
  unfold running_sum. change (@fadd R Float64_R) with Rplus.
  change (@f0 R Float64_R) with 0.
  induction 1 as [|t l Ht _ IH]; simpl.
  - lra.
  - rewrite fold_left_Rplus. lra.
Qed.

Lemma weight_nonneg (dW : list R) (p : nat) :
  Forall (Rle 0) dW -> 0 <= nth p dW f0.
Proof.
  intros H. destruct (Nat.lt_ge_cases p (List.length dW)) as [Hp|Hp].
  - rewrite Forall_forall in H. apply H. apply nth_In. exact Hp.
  - rewrite nth_overflow by exact Hp. apply Rle_refl.
Qed.

Lemma jacobian_nonneg (n1 n2 n3 : vec3 R) (a b : R) :
  0 <= calculate_spherical_triangle_jacobian n1 n2 n3 a b.
Proof. unfold calculate_spherical_triangle_jacobian. apply sqrt_pos. Qed.

Lemma jacobian_barycentric_nonneg (n1 n2 n3 : vec3 R) (a b : R) :
  0 <= calculate_spherical_triangle_jacobian_barycentric n1 n2 n3 a b.
Proof.
  unfold calculate_spherical_triangle_jacobian_barycentric.
  cbv zeta. change (@fmul R Float64_R) with Rmult.
  change (@f_half R Float64_R) with (/ 2).
  apply Rmult_le_pos; [lra | apply sqrt_pos].
Qed.

Lemma rule_terms_nonneg (quadrature_rule : string) (dG : list (list R))
  (dW : list R) (t : triangle) :
  Forall (Rle 0) dW -> Forall (Rle 0) (rule_terms quadrature_rule dG dW t).
Proof.
  intros HW. destruct t as [[n1 n2] n3]. unfold rule_terms.
  destruct (quadrature_rule =? "gaussian")%string.
  - unfold gaussian_terms. apply Forall_flat_map, Forall_forall.
    intros p _. apply Forall_map, Forall_forall. intros q _.
    change (@fmul R Float64_R) with Rmult.
    apply Rmult_le_pos; [apply Rmult_le_pos; apply weight_nonneg; exact HW|].
    apply jacobian_nonneg.
  - unfold triangular_terms. apply Forall_map, Forall_forall. intros p _.
    change (@fmul R Float64_R) with Rmult.
    apply Rmult_le_pos; [apply weight_nonneg; exact HW|].
    apply jacobian_barycentric_nonneg.
Qed.



End RealAreaFacts.

Section MoreAreaRuns.

Local Open Scope R_scope.
Local Open Scope string_scope.




End MoreAreaRuns.

(** ** Grids without nodes, and encoding *)

Section MoreFacadeFacts.

Context {F : Type} {FO : Float64 F}.
Variable area_driver :
  list F -> list F -> list F -> list (list Z) -> list Z -> Z ->
  string -> Z -> string -> result (list F).
Variable np_sum : list F -> F.

Local Open Scope string_scope.

Lemma as_float_array_empty : as_float_array (F:=F) [] = Raise IndexError.
Proof. reflexivity. Qed.

Lemma as_float_array_cons (a : F) (l : list F) :
  as_float_array (a :: l) = Ok (a :: l).
Proof. reflexivity. Qed.

Lemma compute_face_areas_no_node (g : Grid F) (units : string) (dim : Z)
  (quadrature_rule : string) (order : Z) :
  Mesh2_node_x_units g = Some units ->
  Mesh2 g = Some dim ->
  (dim <= 2)%Z \/ (exists z, _Mesh2_node_z g = Some z) ->
  Mesh2_node_x g = [] \/ Mesh2_node_y g = [] ->
  compute_face_areas area_driver g quadrature_rule order = Raise IndexError.
Proof.
  intros Hu Hd Hz Hxy. unfold compute_face_areas.
  rewrite Hu, Hd. cbn [getattr bind].
  assert (Hzz : exists z,
             (if (dim >? 2)%Z
              then getattr "_Mesh2_node_z" (_Mesh2_node_z g)
              else Ok (np_zeros (len (Mesh2_node_x g)))) = Ok z).
  { destruct (dim >? 2)%Z eqn:E.
    - destruct Hz as [Hz | [z Hz]]; [lia|]. exists z. rewrite Hz. reflexivity.
    - eexists. reflexivity. }
  destruct Hzz as [z ->]. cbn [bind].
  destruct (Mesh2_node_x g) as [|a x].
  - reflexivity.
  - destruct Hxy as [Hx | Hy]; [discriminate|]. rewrite Hy. reflexivity.
Qed.


Variables Dataset Names : Type.
Variable _encode_ugrid : Dataset -> result Dataset.
Variable _encode_exodus : Dataset -> Names -> result Dataset.
Variable _encode_scrip :
  list (list Z) -> list F -> list F -> option (list F) -> result Dataset.

Lemma compute_face_areas_stores (g g' : Grid F) (quadrature_rule : string)
  (order : Z) (areas : list F) :
  compute_face_areas area_driver g quadrature_rule order = Ok (areas, g') ->
  g' = set_face_areas g (Some areas).
Proof.
  intros H. apply compute_face_areas_calls_driver in H. apply H.
Qed.

(** X13. After a successful [compute_face_areas] with any rule and order,
    [encode_as("scrip")] hands the SCRIP encoder the areas of that call, and
    computes nothing again: it takes them from the property [face_areas]. *)
Theorem encode_as_scrip_after_compute_face_areas (g g' : Grid F)
  (quadrature_rule : string) (order : Z) (areas : list F)
  (_ds : Dataset) (grid_var_names : option Names) :
  compute_face_areas area_driver g quadrature_rule order = Ok (areas, g') ->
  encode_as area_driver Dataset Names _encode_ugrid _encode_exodus _encode_scrip
    g' _ds grid_var_names "scrip"
  = bind (_encode_scrip (Mesh2_face_nodes g) (Mesh2_node_x g)
            (Mesh2_node_y g) (Some areas))
      (fun out_ds => Ok (out_ds, g')).
Proof.
  intros H. apply compute_face_areas_stores in H. subst g'.
  destruct g. reflexivity.
Qed.

(** X14. [encode_as] returns only for the grid types "ugrid", "exodus" and
    "scrip"; for any other it raises its [RuntimeError] and calls no encoder.
    For "ugrid" and "exodus" the grid is left as it was (no areas are
    computed); "exodus" reads the attribute [grid_var_names], which the class
    never sets; "scrip" on a grid without cached areas first runs
    [compute_face_areas] with "triangular" and 4 and encodes those. *)
Theorem encode_as_other_grid_types (g : Grid F) (_ds : Dataset)
  (grid_var_names : option Names) (grid_type : string) :
  (grid_type <> "scrip" ->
   forall out_ds g',
     encode_as area_driver Dataset Names _encode_ugrid _encode_exodus
       _encode_scrip g _ds grid_var_names grid_type = Ok (out_ds, g') ->
     g' = g /\ (grid_type = "ugrid" \/ grid_type = "exodus"))
  /\ (grid_type <> "ugrid" -> grid_type <> "exodus" ->
      grid_type <> "scrip" ->
      encode_as area_driver Dataset Names _encode_ugrid _encode_exodus
        _encode_scrip g _ds grid_var_names grid_type
      = Raise unsupported_grid_type)
  /\ encode_as area_driver Dataset Names _encode_ugrid _encode_exodus
       _encode_scrip g _ds None "exodus"
     = Raise (AttributeError "grid_var_names")
  /\ encode_as area_driver Dataset Names _encode_ugrid _encode_exodus
       _encode_scrip (set_face_areas g None) _ds grid_var_names "scrip"
     = bind (compute_face_areas area_driver g "triangular" 4)
         (fun r =>
            bind (_encode_scrip (Mesh2_face_nodes g) (Mesh2_node_x g)
                    (Mesh2_node_y g) (Some (fst r)))
              (fun out_ds => Ok (out_ds, snd r))).
Proof.
  split; [|split; [|split]].
  - intros Hs out_ds g' H. unfold encode_as in H.
    destruct (grid_type =? "ugrid") eqn:Eu.
    + apply String.eqb_eq in Eu.
      destruct (_encode_ugrid _ds); cbn [bind] in H; [|discriminate].
      injection H as _ <-. split; [reflexivity | left; exact Eu].
    + destruct (grid_type =? "exodus") eqn:Ee.
      * apply String.eqb_eq in Ee.
        destruct (getattr "grid_var_names" grid_var_names) as [names|];
          cbn [bind] in H; [|discriminate].
        destruct (_encode_exodus _ds names); cbn [bind] in H; [|discriminate].
        injection H as _ <-. split; [reflexivity | right; exact Ee].
      * destruct (grid_type =? "scrip") eqn:Es; [|discriminate].
        apply String.eqb_eq in Es. contradiction.
  - intros Hu He Hs. unfold encode_as.
    apply String.eqb_neq in Hu, He, Hs. rewrite Hu, He, Hs. reflexivity.
  - reflexivity.
  - unfold encode_as, face_areas.
    cbn [String.eqb Ascii.eqb Bool.eqb _face_areas set_face_areas
         Mesh2_face_nodes Mesh2_node_x Mesh2_node_y].
    rewrite compute_face_areas_ignores_cache.
    destruct (compute_face_areas area_driver g "triangular" 4)
      as [[areas g']|e] eqn:H; cbn [bind]; [|reflexivity].
    apply compute_face_areas_stores in H. subst g'. reflexivity.
Qed.

End MoreFacadeFacts.

Section MoreFacadeRuns.

Local Open Scope R_scope.
Local Open Scope string_scope.


(** One node, one face; the driver answers with the area 1; the SCRIP encoder
    answers with the areas it is handed. *)
Lemma encode_as_scrip_after_compute_face_areas_witness :
  compute_face_areas (fun _ _ _ _ _ _ _ _ _ => Ok [1])
    (MkGrid (F:=R) None (Some "m") [0] [0] None [[0%Z]] [1%Z] (Some 2%Z))
    "gaussian" 8
  = Ok ([1], MkGrid (Some [1]) (Some "m") [0] [0] None [[0%Z]] [1%Z]
               (Some 2%Z))
  /\ encode_as (fun _ _ _ _ _ _ _ _ _ => Ok [1]) (option (list R)) unit
       (fun ds => Ok ds) (fun ds _ => Ok ds) (fun _ _ _ areas => Ok areas)
       (MkGrid (Some [1]) (Some "m") [0] [0] None [[0%Z]] [1%Z] (Some 2%Z))
       None None "scrip"
     = Ok (Some [1],
           MkGrid (Some [1]) (Some "m") [0] [0] None [[0%Z]] [1%Z]
             (Some 2%Z)).
Proof.
  assert (H : compute_face_areas (fun _ _ _ _ _ _ _ _ _ => Ok [1])
                (MkGrid (F:=R) None (Some "m") [0] [0] None [[0%Z]] [1%Z]
                   (Some 2%Z)) "gaussian" 8
              = Ok ([1], MkGrid (Some [1]) (Some "m") [0] [0] None [[0%Z]]
                           [1%Z] (Some 2%Z))) by reflexivity.
  split; [exact H|].
  exact (encode_as_scrip_after_compute_face_areas
           (fun _ _ _ _ _ _ _ _ _ => Ok [1]) (option (list R)) unit
           (fun ds => Ok ds) (fun ds _ => Ok ds) (fun _ _ _ areas => Ok areas)
           _ _ "gaussian" 8%Z [1] None None H).
Defined.

End MoreFacadeRuns.


(** ** File-type detection *)

Section FileTypeFacts.

Import FileType.

Local Open Scope string_scope.

Lemma describe_not_empty (e : exc) (filepath : string) :
  (describe e filepath =? "") = false.
Proof.
  unfold describe. destruct (exc_str e) as [|c s]; reflexivity.
Qed.

Lemma is_KeyError_iff (e : exc) :
  is_KeyError e = true <-> exc_kind e = KeyError.
Proof.
  unfold is_KeyError. destruct (exc_kind e); split; intros H;
    try reflexivity; discriminate H.
Qed.

Lemma raises_kind_inv {A : Type} (e : exc) (k : exc_class) :
  raises_kind (@Raised A e) k -> exc_kind e = k.
Proof. intros (e' & He & Hk). injection He as <-. exact Hk. Qed.

Lemma raises_kind_intro {A : Type} (e : exc) :
  raises_kind (@Raised A e) (exc_kind e).
Proof. exists e. split; reflexivity. Qed.

Lemma returns_not_raises {A : Type} (a : A) (k : exc_class) :
  ~ raises_kind (Return a) k.
Proof. intros (e & He & _). discriminate He. Qed.

Variable w : world.

Lemma ugrid_probe_returns (filepath t : string) :
  ugrid_probe w filepath = Return t -> t = "ugrid".
Proof.
  unfold ugrid_probe. intros H.
  repeat match type of H with
         | and_then ?c _ = _ => destruct c; cbn [and_then] in H;
                                [|discriminate H]
         | (if ?b then _ else _) = _ => destruct b; [discriminate H|]
         end.
  injection H as <-. reflexivity.
Qed.

Ltac use_kind :=
  repeat match goal with
         | H : raises_kind (Return _) _ |- _ =>
             exfalso; exact (returns_not_raises _ _ H)
         | H : raises_kind (Raised _) _ |- _ => apply raises_kind_inv in H
         end.

(** No case of the description applies. *)
Ltac refute H :=
  decompose [and or] H; clear H; use_kind; subst;
  try discriminate; try congruence;
  try match goal with
      | Hs : path_suffix _ _ = _, S : (path_suffix _ _ =? _) = false |- _ =>
          rewrite Hs in S; discriminate S
      end.

Ltac raised_kind := eexists; split; [reflexivity | assumption].

(** The class of a caught exception decides the handler. *)
Ltac by_kind e K :=
  destruct (exc_kind e) eqn:K; unfold is_KeyError; try rewrite K.

Lemma determine_file_type_returns_iff (filepath t : string) :
  determine_file_type w filepath = Return t <-> returns_as w filepath t.
Proof.
  unfold returns_as, determine_file_type, try_part, no_scrip, no_exodus,
    shp_candidate.
  destruct (probe w 0 filepath "coord") as [[]|e0] eqn:P0.
  { cbn. split; [|intros H; refute H; reflexivity].
    intros H. injection H as <-. left. split; [reflexivity|].
    left. reflexivity. }
  destruct (exc_kind e0) eqn:K0.
  - (* KeyError: the nested attempts *)
    destruct (probe w 1 filepath "coordx") as [[]|e1] eqn:P1.
    { cbn. split; [|intros H; refute H; reflexivity].
      intros H. injection H as <-. left. split; [reflexivity|].
      right. split; [raised_kind | reflexivity]. }
    unfold is_KeyError at 1.
    destruct (exc_kind e1) eqn:K1;
      try (cbn; split; [intros H; discriminate H | intros H; refute H]).
    destruct (probe w 2 filepath "grid_center_lon") as [[]|e2] eqn:P2.
    { cbn. split; [|intros H; refute H; reflexivity].
      intros H. injection H as <-. right. left.
      split; [reflexivity|]. split; [|reflexivity]. split; raised_kind. }
    unfold is_KeyError at 1.
    destruct (exc_kind e2) eqn:K2;
      try (cbn; split; [intros H; discriminate H | intros H; refute H]).
    destruct (ugrid_probe w filepath) as [t'|e3] eqn:P3.
    { cbn. pose proof (ugrid_probe_returns filepath t' P3) as ->.
      split; [|intros H; refute H; reflexivity].
      intros H. injection H as <-. right. right. left.
      split; [reflexivity|]. split; [|reflexivity].
      split; [split|]; raised_kind. }
    destruct (is_KeyError e3); cbn; [rewrite describe_not_empty; cbn|];
      (split; [intros H; discriminate H | intros H; refute H]).
  - (* TypeError *)
    cbn. rewrite describe_not_empty. cbn.
    split; [intros H; discriminate H | intros H; refute H].
  - (* AttributeError *)
    cbn. rewrite describe_not_empty. cbn.
    split; [intros H; discriminate H | intros H; refute H].
  - (* RuntimeError *)
    destruct (path_suffix w filepath =? ".shp") eqn:S; cbn;
      [|rewrite describe_not_empty; cbn;
        split; [intros H; discriminate H | intros H; refute H]].
    apply String.eqb_eq in S.
    split; [|intros H; refute H; reflexivity].
    intros H. injection H as <-. right. right. right.
    split; [reflexivity|]. split; [|exact S]. left. raised_kind.
  - (* OSError *)
    destruct (path_suffix w filepath =? ".shp") eqn:S; cbn;
      [|rewrite describe_not_empty; cbn;
        split; [intros H; discriminate H | intros H; refute H]].
    apply String.eqb_eq in S.
    split; [|intros H; refute H; reflexivity].
    intros H. injection H as <-. right. right. right.
    split; [reflexivity|]. split; [|exact S]. right. left. raised_kind.
  - (* ValueError *)
    destruct (path_suffix w filepath =? ".shp") eqn:S; cbn;
      [|rewrite describe_not_empty; cbn;
        split; [intros H; discriminate H | intros H; refute H]].
    apply String.eqb_eq in S.
    split; [|intros H; refute H; reflexivity].
    intros H. injection H as <-. right. right. right.
    split; [reflexivity|]. split; [|exact S]. right. right. raised_kind.
  - (* IndexError *)
    cbn. split; [intros H; discriminate H | intros H; refute H].
  - (* any other exception *)
    cbn. split; [intros H; discriminate H | intros H; refute H].
Qed.

(** X4. [determine_file_type] returns "exo", "scrip", "ugrid" or "shp" and
    nothing else (never "unknown"), each in exactly the cases of
    [returns_as]: "exo" when "coord" or, failing that, "coordx" is in the
    file; "scrip" when neither is and "grid_center_lon" is; "ugrid" when none
    is and the UGRID test passes; "shp" when the first attempt raises a
    [RuntimeError], [OSError] or [ValueError] and the suffix is ".shp". *)
Theorem determine_file_type_returns (filepath : string) :
  (forall t,
     determine_file_type w filepath = Return t <-> returns_as w filepath t)
  /\ (forall t,
        determine_file_type w filepath = Return t ->
        In t ["exo"; "scrip"; "ugrid"; "shp"]).
Proof.
  split; [intros t; apply determine_file_type_returns_iff|].
  intros t H. apply determine_file_type_returns_iff in H.
  destruct H as [(-> & _) | [(-> & _) | [(-> & _) | (-> & _)]]];
    simpl; tauto.
Qed.

(** X5. Whenever a handler sets [msg], the function raises the [ValueError]
    "Unable to determine file type, mesh file not supported: <filepath>",
    whatever the exception caught was and said: a [TypeError] or
    [AttributeError] in the first attempt; a [RuntimeError], [OSError] or
    [ValueError] there with a suffix other than ".shp"; a [KeyError] in the
    UGRID test. *)
Theorem determine_file_type_unsupported (filepath : string) :
  gives_up w filepath ->
  determine_file_type w filepath = Raised (unsupported_error filepath).
Proof.
  unfold gives_up, shp_candidate, no_scrip, no_exodus.
  intros H. unfold determine_file_type, try_part.
  destruct (probe w 0 filepath "coord") as [[]|e0] eqn:P0; [refute H|].
  destruct (path_suffix w filepath =? ".shp") eqn:S.
  - apply String.eqb_eq in S.
    destruct (exc_kind e0) eqn:K0; try (refute H; fail);
      try (cbn; rewrite describe_not_empty; reflexivity).
    destruct (probe w 1 filepath "coordx") as [[]|e1] eqn:P1; [refute H|].
    by_kind e1 K1; try (refute H; fail).
    destruct (probe w 2 filepath "grid_center_lon") as [[]|e2] eqn:P2;
      [refute H|].
    by_kind e2 K2; try (refute H; fail).
    destruct (ugrid_probe w filepath) as [t'|e3] eqn:P3; [refute H|].
    by_kind e3 K3; try (refute H; fail).
    cbn. rewrite describe_not_empty. reflexivity.
  - destruct (exc_kind e0) eqn:K0; try (refute H; fail);
      try (cbn; rewrite describe_not_empty; reflexivity).
    destruct (probe w 1 filepath "coordx") as [[]|e1] eqn:P1; [refute H|].
    by_kind e1 K1; try (refute H; fail).
    destruct (probe w 2 filepath "grid_center_lon") as [[]|e2] eqn:P2;
      [refute H|].
    by_kind e2 K2; try (refute H; fail).
    destruct (ugrid_probe w filepath) as [t'|e3] eqn:P3; [refute H|].
    by_kind e3 K3; try (refute H; fail).
    cbn. rewrite describe_not_empty. reflexivity.
Qed.

(** X6. An exception that no handler catches leaves the function as it was
    raised: one of no named class in the first attempt, and any exception
    but a [KeyError] in the later attempts, where the clauses for
    [OSError], [ValueError] and the like no longer apply (a ".shp" suffix
    does not help there). *)
Theorem determine_file_type_propagates (filepath : string) (e : exc) :
  escapes w filepath e ->
  determine_file_type w filepath = Raised e.
Proof.
  unfold escapes, no_scrip, no_exodus.
  intros H. unfold determine_file_type, try_part.
  destruct (probe w 0 filepath "coord") as [[]|e0] eqn:P0; [refute H|].
  destruct (exc_kind e0) eqn:K0; try (refute H; fail);
    try (decompose [and or] H; clear H; use_kind;
         repeat match goal with
                | Heq : Raised _ = Raised _ |- _ => injection Heq as <-
                end;
         try congruence; reflexivity).
  destruct (probe w 1 filepath "coordx") as [[]|e1] eqn:P1; [refute H|].
  destruct (is_KeyError e1) eqn:I1.
  2:{ apply Bool.not_true_iff_false in I1. rewrite is_KeyError_iff in I1.
      decompose [and or] H; clear H; use_kind;
        repeat match goal with
               | Heq : Raised _ = Raised _ |- _ => injection Heq as <-
               end; try congruence; reflexivity. }
  apply is_KeyError_iff in I1.
  destruct (probe w 2 filepath "grid_center_lon") as [[]|e2] eqn:P2;
    [refute H|].
  destruct (is_KeyError e2) eqn:I2.
  2:{ apply Bool.not_true_iff_false in I2. rewrite is_KeyError_iff in I2.
      decompose [and or] H; clear H; use_kind;
        repeat match goal with
               | Heq : Raised _ = Raised _ |- _ => injection Heq as <-
               end; try congruence; reflexivity. }
  apply is_KeyError_iff in I2.
  destruct (ugrid_probe w filepath) as [t'|e3] eqn:P3; [refute H|].
  destruct (is_KeyError e3) eqn:I3.
  - apply is_KeyError_iff in I3.
    decompose [and or] H; clear H; use_kind;
      repeat match goal with
             | Heq : Raised _ = Raised _ |- _ => injection Heq as <-
             end; congruence.
  - decompose [and or] H; clear H; use_kind;
      repeat match goal with
             | Heq : Raised _ = Raised _ |- _ => injection Heq as <-
             end; try congruence; reflexivity.
Qed.

(** X7. The UGRID test passes exactly when the file opens, the four filters
    return their lists, and each list has a first key other than the empty
    string; only the first key of each list is looked at. *)
Theorem ugrid_probe_passes (filepath : string) :
  ugrid_probe w filepath = Return "ugrid" <->
  exists ds node_coords face_conn topo_dim mesh_topo,
    open_dataset w 3 filepath = Return ds
    /\ filter_by_attrs_keys w ds "node_coordinates" = Return node_coords
    /\ filter_by_attrs_keys w ds "face_node_connectivity" = Return face_conn
    /\ filter_by_attrs_keys w ds "topology_dimension" = Return topo_dim
    /\ filter_by_attrs_keys w ds "cf_role" = Return mesh_topo
    /\ named_first mesh_topo /\ named_first topo_dim
    /\ named_first face_conn /\ named_first node_coords.
Proof.
  unfold ugrid_probe, named_first. split.
  - intros H.
    destruct (open_dataset w 3 filepath) as [ds|] eqn:Hds;
      [|discriminate H].
    cbn [and_then] in H.
    destruct (filter_by_attrs_keys w ds "node_coordinates") as [nc|] eqn:Hnc;
      [|discriminate H].
    destruct (filter_by_attrs_keys w ds "face_node_connectivity")
      as [fc|] eqn:Hfc; [|discriminate H].
    destruct (filter_by_attrs_keys w ds "topology_dimension")
      as [td|] eqn:Htd; [|discriminate H].
    destruct (filter_by_attrs_keys w ds "cf_role") as [mt|] eqn:Hmt;
      [|discriminate H].
    cbn [and_then] in H.
    destruct mt as [|k1 r1]; [discriminate H|]. cbn in H.
    destruct (k1 =? "") eqn:E1; [discriminate H|].
    destruct td as [|k2 r2]; [discriminate H|]. cbn in H.
    destruct (k2 =? "") eqn:E2; [discriminate H|].
    destruct fc as [|k3 r3]; [discriminate H|]. cbn in H.
    destruct (k3 =? "") eqn:E3; [discriminate H|].
    destruct nc as [|k4 r4]; [discriminate H|]. cbn in H.
    destruct (k4 =? "") eqn:E4; [discriminate H|].
    apply String.eqb_neq in E1, E2, E3, E4.
    exists ds, (k4 :: r4), (k3 :: r3), (k2 :: r2), (k1 :: r1).
    repeat split; try reflexivity; try assumption;
      (do 2 eexists; split; [reflexivity | assumption]).
  - intros (ds & nc & fc & td & mt & -> & Hnc & Hfc & Htd & Hmt
            & (k1 & r1 & -> & N1) & (k2 & r2 & -> & N2)
            & (k3 & r3 & -> & N3) & (k4 & r4 & -> & N4)).
    cbn [and_then]. rewrite Hnc, Hfc, Htd, Hmt. cbn.
    apply String.eqb_neq in N1, N2, N3, N4.
    rewrite N1, N2, N3, N4. reflexivity.
Qed.

End FileTypeFacts.

Section FileTypeRuns.

Import FileType.

Local Open Scope string_scope.

(** A file that cannot be opened, under a name that is no shapefile's. *)
Lemma determine_file_type_unsupported_witness :
  gives_up (sample_world (Raised (Exc OSError "No such file"))) "mesh.nc"
  /\ determine_file_type (sample_world (Raised (Exc OSError "No such file")))
       "mesh.nc"
     = Raised (unsupported_error "mesh.nc").
Proof.
  assert (H : gives_up (sample_world (Raised (Exc OSError "No such file")))
                "mesh.nc").
  { right. right. left. split.
    - right. left. eexists. split; reflexivity.
    - discriminate. }
  split; [exact H|].
  exact (determine_file_type_unsupported _ "mesh.nc" H).
Defined.

(** A NetCDF file with data but no mesh: the UGRID test subscripts an empty
    list of keys, and the [IndexError] leaves the function. *)
Lemma determine_file_type_propagates_witness :
  escapes (sample_world (Return plain_file)) "data.nc"
    (Exc IndexError "list index out of range")
  /\ determine_file_type (sample_world (Return plain_file)) "data.nc"
     = Raised (Exc IndexError "list index out of range").
Proof.
  assert (H : escapes (sample_world (Return plain_file)) "data.nc"
                (Exc IndexError "list index out of range")).
  { right. split; [discriminate|]. right. right. split; [|reflexivity].
    split; [split|]; eexists; split; reflexivity. }
  split; [exact H|].
  exact (determine_file_type_propagates _ "data.nc" _ H).
Defined.

End FileTypeRuns.

(** ** Construction, copy and cached views of a grid *)

Section GridObjectFacts.

Import GridObject.
Local Open Scope string_scope.

Context {T : types}.
Variable lib : library.

Lemma and_then_returns {A B : Type} (c : outcome A) (k : A -> outcome B)
  (b : B) :
  and_then c k = Return b -> exists a, c = Return a /\ k a = Return b.
Proof.
  destruct c as [a|e]; simpl; intros H; [|discriminate].
  exists a. split; [reflexivity | exact H].
Qed.

Lemma init_returns (grid_ds : Dataset) (spec : option string)
  (m : option Mapping) (kwargs : list (string * Attribute)) (g : grid) :
  __init__ grid_ds spec m kwargs = Return g ->
  spec = Some (grid_spec g) /\ _ugrid_mapping g = m /\ _ds g = grid_ds
  /\ _face_areas g = None /\ _antimeridian_face_indices g = None
  /\ _gdf g = None /\ _poly_collection g = None
  /\ gridspec g = None /\ grid_var_names g = None.
Proof.
  unfold __init__. destruct spec as [s|]; [|discriminate].
  intros H. injection H as <-. cbn. repeat split; reflexivity.
Qed.

Lemma read_grid_assigns (spec : string) (ds : Dataset) (use_dual : bool)
  (r : Dataset * Mapping) :
  read_grid lib spec ds use_dual = Return (Some r) ->
  In spec ["Exodus"; "Scrip"; "UGRID"; "MPAS"].
Proof.
  unfold read_grid. intros H.
  destruct (spec =? "Exodus") eqn:E1;
    [apply String.eqb_eq in E1; simpl; auto|].
  destruct (spec =? "Scrip") eqn:E2;
    [apply String.eqb_eq in E2; simpl; auto|].
  destruct (spec =? "UGRID") eqn:E3;
    [apply String.eqb_eq in E3; simpl; auto|].
  destruct (spec =? "MPAS") eqn:E4;
    [apply String.eqb_eq in E4; simpl; auto|].
  destruct (spec =? "Shapefile"); discriminate.
Qed.

Lemma read_grid_use_dual (spec : string) (ds : Dataset) (d1 d2 : bool) :
  spec <> "MPAS" -> read_grid lib spec ds d1 = read_grid lib spec ds d2.
Proof.
  intros H. apply String.eqb_neq in H. unfold read_grid. rewrite H.
  reflexivity.
Qed.

(** X15. [from_dataset] returns a grid only for a dataset whose parsed type
    is "Exodus", "Scrip", "UGRID" or "MPAS", and the grid it returns has no
    cached areas, antimeridian indices, frame or collection.  A parsed type
    outside the five names the function tests reaches [else: pass] and the
    [return] then reads the unassigned [grid_ds]: an [UnboundLocalError].
    "Shapefile" and an argument that is no dataset raise a bare
    [ValueError].  [use_dual] matters only for "MPAS". *)
Theorem from_dataset_outcomes (dataset : argument Dataset) (use_dual : bool) :
  (forall g,
     from_dataset lib dataset use_dual = Return g ->
     In (grid_spec g) ["Exodus"; "Scrip"; "UGRID"; "MPAS"]
     /\ (exists ds, dataset = Instance ds
                    /\ _parse_grid_type lib ds = Return (grid_spec g))
     /\ _face_areas g = None /\ _antimeridian_face_indices g = None
     /\ _gdf g = None /\ _poly_collection g = None)
  /\ (forall ds spec,
        dataset = Instance ds -> _parse_grid_type lib ds = Return spec ->
        ~ In spec ["Exodus"; "Scrip"; "UGRID"; "MPAS"; "Shapefile"] ->
        raises_class (from_dataset lib dataset use_dual) "UnboundLocalError")
  /\ (forall ds,
        dataset = Instance ds ->
        _parse_grid_type lib ds = Return "Shapefile" ->
        from_dataset lib dataset use_dual = Raised bare_ValueError)
  /\ (dataset = NotInstance ->
      from_dataset lib dataset use_dual = Raised bare_ValueError)
  /\ ((forall ds, dataset = Instance ds ->
                  _parse_grid_type lib ds <> Return "MPAS") ->
      forall use_dual',
        from_dataset lib dataset use_dual'
        = from_dataset lib dataset use_dual).
Proof.
  split; [|split; [|split; [|split]]].
  - intros g H. destruct dataset as [ds|]; [|discriminate].
    unfold from_dataset in H.
    apply and_then_returns in H. destruct H as (spec & Hspec & H).
    apply and_then_returns in H. destruct H as (assigned & Hread & H).
    destruct assigned as [[grid_ds m]|]; [|discriminate].
    apply init_returns in H.
    destruct H as (Hs & _ & _ & Ha & Hi & Hg & Hp & _ & _).
    injection Hs as Hs. subst spec.
    split; [exact (read_grid_assigns _ _ _ _ Hread)|].
    split; [exists ds; split; [reflexivity | exact Hspec]|].
    repeat split; assumption.
  - intros ds spec -> Hspec Hnot. unfold from_dataset. rewrite Hspec.
    cbn [and_then]. unfold read_grid.
    destruct (spec =? "Exodus") eqn:E1;
      [apply String.eqb_eq in E1; exfalso; apply Hnot; simpl; auto|].
    destruct (spec =? "Scrip") eqn:E2;
      [apply String.eqb_eq in E2; exfalso; apply Hnot; simpl; auto|].
    destruct (spec =? "UGRID") eqn:E3;
      [apply String.eqb_eq in E3; exfalso; apply Hnot; simpl; auto|].
    destruct (spec =? "MPAS") eqn:E4;
      [apply String.eqb_eq in E4; exfalso; apply Hnot; simpl; auto 6|].
    destruct (spec =? "Shapefile") eqn:E5;
      [apply String.eqb_eq in E5; exfalso; apply Hnot; simpl; auto 6|].
    cbn [and_then]. eexists. split; reflexivity.
  - intros ds -> Hspec. unfold from_dataset. rewrite Hspec. reflexivity.
  - intros ->. reflexivity.
  - intros Hnot use_dual'. destruct dataset as [ds|]; [|reflexivity].
    unfold from_dataset.
    destruct (_parse_grid_type lib ds) as [spec|e] eqn:Hspec; [|reflexivity].
    cbn [and_then].
    rewrite (read_grid_use_dual spec ds use_dual' use_dual); [reflexivity|].
    intros ->. apply (Hnot ds eq_refl). exact Hspec.
Qed.

(** X16. [from_face_vertices] returns a grid only for a list, tuple or
    array of dimension 2 or 3; the grid has the specification
    "Face Vertices", no mapping and empty caches.  Another dimension raises
    the [RuntimeError] that names it, another argument a bare [ValueError].
    A single face (dimension 2) gives what the same face gives when it is
    passed wrapped in an array of dimension 3. *)
Theorem from_face_vertices_outcomes (face_vertices : argument Sequence)
  (latlon : bool) :
  (forall g,
     from_face_vertices lib face_vertices latlon = Return g ->
     grid_spec g = "Face Vertices" /\ _ugrid_mapping g = None
     /\ _face_areas g = None /\ _antimeridian_face_indices g = None
     /\ _gdf g = None /\ _poly_collection g = None
     /\ exists s a, face_vertices = Instance s
                    /\ np_asarray lib s = Return a
                    /\ (ndim lib a = 2 \/ ndim lib a = 3)%Z)
  /\ (forall s a,
        face_vertices = Instance s -> np_asarray lib s = Return a ->
        ndim lib a <> 2%Z -> ndim lib a <> 3%Z ->
        from_face_vertices lib face_vertices latlon
        = Raised (invalid_dimension (ndim lib a)))
  /\ (face_vertices = NotInstance ->
      from_face_vertices lib face_vertices latlon = Raised bare_ValueError)
  /\ (forall s a s' a',
        face_vertices = Instance s -> np_asarray lib s = Return a ->
        ndim lib a = 2%Z -> np_array_of_one lib a = Return a' ->
        np_asarray lib s' = Return a' -> ndim lib a' = 3%Z ->
        from_face_vertices lib (Instance s') latlon
        = from_face_vertices lib face_vertices latlon).
Proof.
  split; [|split; [|split]].
  - intros g H. destruct face_vertices as [s|]; [|discriminate].
    unfold from_face_vertices in H.
    apply and_then_returns in H. destruct H as (a & Ha & H).
    apply and_then_returns in H. destruct H as (grid_ds & Hread & H).
    apply init_returns in H.
    destruct H as (Hs & Hm & _ & Hfa & Hi & Hg & Hp & _ & _).
    injection Hs as Hs.
    split; [symmetry; exact Hs|]. split; [exact Hm|].
    split; [exact Hfa|]. split; [exact Hi|]. split; [exact Hg|].
    split; [exact Hp|]. exists s, a.
    split; [reflexivity|]. split; [exact Ha|].
    destruct (ndim lib a =? 3)%Z eqn:E3; [right; lia|].
    destruct (ndim lib a =? 2)%Z eqn:E2; [left; lia | discriminate].
  - intros s a -> Ha H2 H3. unfold from_face_vertices. rewrite Ha.
    cbn [and_then]. apply Z.eqb_neq in H2, H3. rewrite H2, H3. reflexivity.
  - intros ->. reflexivity.
  - intros s a s' a' -> Ha H2 Hw Ha' H3. unfold from_face_vertices.
    rewrite Ha, Ha'. cbn [and_then]. rewrite H2, H3, Hw. reflexivity.
Qed.

Lemma read_attribute_class {A : Type} (name : string) (a : option A)
  (e : exception) :
  read_attribute name a = Raised e -> class_name e = "AttributeError".
Proof.
  destruct a; simpl; intros H; [discriminate|]. injection H as <-.
  reflexivity.
Qed.

(** X17. [copy] never returns a grid.  It calls [Grid] with the dataset
    and six keyword arguments, none of which is the required [grid_spec], so
    when nothing fails before the call raises a [TypeError]; and a grid that
    [__init__] made has no attribute [gridspec], so there [copy] raises an
    [AttributeError] as soon as the dataset is copied. *)
Theorem copy_never_returns (self : grid) :
  (exists e,
     copy lib self = Raised e
     /\ (xr_Dataset lib (_ds self) = Raised e
         \/ class_name e = "AttributeError"
         \/ e = missing_grid_spec))
  /\ (forall grid_ds spec m kwargs ds',
        __init__ grid_ds spec m kwargs = Return self ->
        xr_Dataset lib grid_ds = Return ds' ->
        raises_class (copy lib self) "AttributeError").
Proof.
  split.
  - unfold copy.
    destruct (xr_Dataset lib (_ds self)) as [ds|e];
      [|exists e; split; [reflexivity | left; reflexivity]].
    cbn [and_then].
    repeat match goal with
    | |- context [read_attribute ?n ?a] =>
        destruct (read_attribute n a) as [?|e] eqn:?H;
          [cbn [and_then]
          |exists e; split;
             [reflexivity
             |right; left; eapply read_attribute_class; eassumption]]
    end.
    exists missing_grid_spec. split; [reflexivity | right; right; reflexivity].
  - intros grid_ds spec m kwargs ds' Hinit Hds.
    apply init_returns in Hinit.
    destruct Hinit as (_ & _ & Hd & _ & _ & _ & _ & Hg & _).
    unfold copy. rewrite Hd, Hds, Hg. cbn [and_then read_attribute].
    eexists. split; reflexivity.
Qed.

(** X18. After a call of [to_geodataframe] with [cache=True] has returned,
    every later call without [override] returns that same frame and leaves
    the grid as it is, whatever its other flags: the builder is not run
    again, and a different [correct_antimeridian_polygons] has no effect. *)
Theorem to_geodataframe_cached (self self' : grid)
  (override correct : bool) (gdf : Frame) :
  to_geodataframe lib self override true correct = Return (gdf, self') ->
  forall cache' correct',
    to_geodataframe lib self' false cache' correct' = Return (gdf, self').
Proof.
  intros H cache' correct'.
  assert (Hc : _gdf self' = Some gdf).
  { unfold to_geodataframe in H.
    destruct (_gdf self) as [cached|] eqn:Hg; [destruct override|].
    - apply and_then_returns in H. destruct H as ([g s] & _ & H).
      injection H as <- <-. reflexivity.
    - injection H as <- <-. exact Hg.
    - apply and_then_returns in H. destruct H as ([g s] & _ & H).
      injection H as <- <-. reflexivity. }
  unfold to_geodataframe. rewrite Hc. reflexivity.
Qed.

(** X19. [to_polycollection] returns values of two shapes.  A call that
    builds (nothing cached, or [override]) returns the pair of the collection
    and [corrected_to_original_faces]; once it has cached the collection,
    every later call without [override] returns the collection alone. *)
Theorem to_polycollection_shapes (self self' : grid)
  (override correct : bool) (r : polycollection_result) :
  _poly_collection self = None \/ override = true ->
  to_polycollection lib self override true correct = Return (r, self') ->
  (exists pc faces, r = Paired pc faces)
  /\ forall cache' correct',
       to_polycollection lib self' false cache' correct'
       = Return (Alone (collection_of r), self').
Proof.
  intros Hfresh H. unfold to_polycollection in H.
  assert (Hbuild :
            and_then (_grid_to_matplotlib_polycollection lib self)
              (fun x => let '(pc, faces, s) := x in
                 Return (Paired pc faces, set_poly_collection s (Some pc)))
            = Return (r, self')).
  { destruct (_poly_collection self) as [cached|]; [|exact H].
    destruct Hfresh as [Hn | ->]; [discriminate | exact H]. }
  apply and_then_returns in Hbuild.
  destruct Hbuild as ([[pc faces] s] & _ & Hr). injection Hr as <- <-.
  split; [exists pc, faces; reflexivity|].
  intros cache' correct'. reflexivity.
Qed.

Lemma eq_loop_skips (self other : grid) (items : list (string * string)) :
  Forall (fun item => in_data_vars lib (_ds self) (snd item) = false) items ->
  eq_loop lib self other items = Return true.
Proof.
  induction 1 as [|[key value] items Hi _ IH]; [reflexivity|].
  cbn [eq_loop eq_step]. cbn [snd] in Hi. rewrite Hi. cbn [and_then].
  exact IH.
Qed.

(** X20. Equality of grids rests on the attribute [grid_var_names], which
    the class never sets.  Compared with [None] a grid is unequal and no
    attribute is read.  Compared with a grid, a grid without the attribute
    raises an [AttributeError] from [==] and from [!=]; so does a grid that
    [__init__] made when compared with itself.  With the attribute, a grid
    none of whose names is among its data variables is equal to every
    grid; and when [==] returns, [!=] returns the opposite. *)
Theorem grid_equality_outcomes (self : grid) :
  (__eq__ lib self None = Return false /\ __ne__ lib self None = Return true)
  /\ (grid_var_names self = None ->
      forall other,
        raises_class (__eq__ lib self (Some other)) "AttributeError"
        /\ raises_class (__ne__ lib self (Some other)) "AttributeError")
  /\ (forall grid_ds spec m kwargs,
        __init__ grid_ds spec m kwargs = Return self ->
        raises_class (__eq__ lib self (Some self)) "AttributeError")
  /\ (forall items,
        grid_var_names self = Some items ->
        Forall (fun item => in_data_vars lib (_ds self) (snd item) = false)
          items ->
        forall other, __eq__ lib self (Some other) = Return true)
  /\ (forall other b,
        __eq__ lib self other = Return b ->
        __ne__ lib self other = Return (negb b)).
Proof.
  assert (Hnone : grid_var_names self = None ->
                  forall other,
                    raises_class (__eq__ lib self (Some other))
                      "AttributeError").
  { intros Hn other. unfold __eq__. rewrite Hn. eexists.
    split; reflexivity. }
  split; [split; reflexivity|]. split; [|split; [|split]].
  - intros Hn other. split; [exact (Hnone Hn other)|].
    unfold __ne__, __eq__. rewrite Hn. eexists. split; reflexivity.
  - intros grid_ds spec m kwargs Hinit. apply Hnone.
    apply init_returns in Hinit. apply Hinit.
  - intros items Hitems Hskip other. unfold __eq__. rewrite Hitems.
    cbn [read_attribute and_then]. apply eq_loop_skips. exact Hskip.
  - intros other b H. unfold __ne__. rewrite H. reflexivity.
Qed.

End GridObjectFacts.

Section GridObjectRuns.

Import GridObject.
Local Open Scope string_scope.

(** A frame built and cached with the antimeridian correction is what a later
    call without the correction returns. *)
Lemma to_geodataframe_cached_witness :
  to_geodataframe sample_library sample_grid false true true
  = Return (true, set_gdf sample_grid (Some true))
  /\ to_geodataframe sample_library (set_gdf sample_grid (Some true))
       false true false
     = Return (true, set_gdf sample_grid (Some true)).
Proof.
  assert (H : to_geodataframe sample_library sample_grid false true true
              = Return (true, set_gdf sample_grid (Some true)))
    by reflexivity.
  split; [exact H|].
  exact (to_geodataframe_cached sample_library sample_grid
           (set_gdf sample_grid (Some true)) false true true H true false).
Defined.

(** The first call returns a pair, the second the collection alone. *)
Lemma to_polycollection_shapes_witness :
  to_polycollection sample_library sample_grid false true true
  = Return (@Paired sample_types 7%nat [0%nat; 1%nat],
            set_poly_collection sample_grid (Some 7%nat))
  /\ to_polycollection sample_library
       (set_poly_collection sample_grid (Some 7%nat)) false true true
     = Return (@Alone sample_types 7%nat,
               set_poly_collection sample_grid (Some 7%nat)).
Proof.
  assert (H : to_polycollection sample_library sample_grid false true true
              = Return (@Paired sample_types 7%nat [0%nat; 1%nat],
                        set_poly_collection sample_grid (Some 7%nat)))
    by reflexivity.
  split; [exact H|].
  exact (proj2 (to_polycollection_shapes sample_library sample_grid
                  (set_poly_collection sample_grid (Some 7%nat)) false true
                  (@Paired sample_types 7%nat [0%nat; 1%nat])
                  (or_introl eq_refl) H)
           true true).
Defined.

End GridObjectRuns.
